(** * Interview coach: history store, progress tracking and question prompts

    A shallow embedding of [service.py] and [models.py], and of the session
    bookkeeping of [app.py]: the handlers of [main] are functions on the
    session state and the service, the calls that only display being left
    out.

    - Python values that cross the JSON boundary (the history file, the
      replies of the language model) are values of [pyval]; dictionaries
      inside [pyval] are association lists in insertion order.
    - The pydantic models [Question], [InterviewSession] and [UserProgress]
      are records; the dictionaries the service indexes by key
      ([history["progress"]], [subtopic_scores]) are [gmap]s.
    - Python floats are exact rationals ([Q]): the theorems below are about
      the formulas the service evaluates, not about binary rounding.
    - Exceptions are the [Raise] results of a small error monad.
    - A call to the language model followed by [json.loads] is represented
      by its parsed reply, which every operation receives as an argument;
      [datetime.now()] is an argument as well. *)

From Stdlib Require Import ZArith NArith QArith Qpower Ascii String List Lia Lqa.
From stdpp Require Import base option list strings gmap fin_maps pretty.

Close Scope Q_scope.
Set Warnings "-register-all".
Open Scope stdpp_scope.

(** ** Exceptions and the error monad *)

Inductive exn : Type :=
| FileNotFoundError
| PermissionError
| JSONDecodeError
| ValueError
| TypeError
| KeyError
| AttributeError
| ValidationError.

Inductive result (A : Type) : Type :=
| Ok (a : A)
| Raise (e : exn).
Arguments Ok {A} a.
Arguments Raise {A} e.

#[global] Instance result_ret : MRet result := fun A a => Ok a.
#[global] Instance result_bind : MBind result := fun A B f m =>
  match m with
  | Ok a => f a
  | Raise e => Raise e
  end.
#[global] Instance result_fmap : FMap result := fun A B f m =>
  match m with
  | Ok a => Ok (f a)
  | Raise e => Raise e
  end.

Definition is_FileNotFoundError (e : exn) : bool :=
  match e with
  | FileNotFoundError => true
  | _ => false
  end.

(** [try: body except FileNotFoundError: handler] *)
Definition try_except_FileNotFoundError {A} (body handler : result A) : result A :=
  match body with
  | Raise e => if is_FileNotFoundError e then handler else Raise e
  | Ok a => Ok a
  end.

(** ** [datetime]: naive timestamps and their ISO-8601 text *)

Record datetime : Type := mk_datetime {
  year : N;
  month : N;
  day : N;
  hour : N;
  minute : N;
  second : N;
  microsecond : N
}.

Definition is_leap (y : N) : bool :=
  ((y mod 4 =? 0) && (negb (y mod 100 =? 0) || (y mod 400 =? 0)))%N.

Definition days_in_month (y m : N) : N :=
  (if m =? 2 then (if is_leap y then 29 else 28)
   else if (m =? 4) || (m =? 6) || (m =? 9) || (m =? 11) then 30
   else 31)%N.

(** The ranges the [datetime] constructor enforces. *)
Definition valid_datetime (d : datetime) : bool :=
  ((1 <=? year d) && (year d <=? 9999) &&
   (1 <=? month d) && (month d <=? 12) &&
   (1 <=? day d) && (day d <=? days_in_month (year d) (month d)) &&
   (hour d <? 24) && (minute d <? 60) && (second d <? 60) &&
   (microsecond d <? 1000000))%N.

Definition digit_char (d : N) : ascii := ascii_of_N (48 + d).

Definition digit_value (c : ascii) : option N :=
  let n := N_of_ascii c in
  if ((48 <=? n) && (n <=? 57))%N then Some (n - 48)%N else None.

(** [zfill k n rest] writes the [k] low decimal digits of [n], most
    significant first, in front of [rest]: the [%0kd] of [isoformat]. *)
Fixpoint zfill (k : nat) (n : N) (rest : string) : string :=
  match k with
  | O => rest
  | S k' => String (digit_char ((n / 10 ^ N.of_nat k') mod 10)) (zfill k' n rest)
  end.

(** [read_digits k s acc] reads exactly [k] decimal digits. *)
Fixpoint read_digits (k : nat) (s : string) (acc : N) : option (N * string) :=
  match k with
  | O => Some (acc, s)
  | S k' =>
      match s with
      | String c s' =>
          match digit_value c with
          | Some d => read_digits k' s' (10 * acc + d)
          | None => None
          end
      | EmptyString => None
      end
  end.

Definition expect (c : ascii) (s : string) : option string :=
  match s with
  | String c' s' => if Ascii.eqb c c' then Some s' else None
  | EmptyString => None
  end.

(** [datetime.isoformat()]: [YYYY-MM-DDTHH:MM:SS], followed by [.ffffff]
    when the microsecond field is not zero. *)
Definition isoformat (d : datetime) : string :=
  zfill 4 (year d) (String "-" (zfill 2 (month d) (String "-" (zfill 2 (day d)
    (String "T" (zfill 2 (hour d) (String ":" (zfill 2 (minute d) (String ":"
      (zfill 2 (second d)
        (if (microsecond d =? 0)%N then EmptyString
         else String "." (zfill 6 (microsecond d) EmptyString)))))))))))).

(** [datetime.fromisoformat], on the two shapes [isoformat] writes; any
    other text, or a field out of range, is [None] (a [ValueError]). *)
Definition fromisoformat (s : string) : option datetime :=
  '(y, s) ← read_digits 4 s 0%N;
  s ← expect "-" s;
  '(mo, s) ← read_digits 2 s 0%N;
  s ← expect "-" s;
  '(dd, s) ← read_digits 2 s 0%N;
  s ← expect "T" s;
  '(hh, s) ← read_digits 2 s 0%N;
  s ← expect ":" s;
  '(mi, s) ← read_digits 2 s 0%N;
  s ← expect ":" s;
  '(ss, s) ← read_digits 2 s 0%N;
  '(us, s) ← match s with
             | EmptyString => Some (0%N, s)
             | String c s' => if Ascii.eqb c "." then read_digits 6 s' 0%N else None
             end;
  match s with
  | EmptyString =>
      let d := mk_datetime y mo dd hh mi ss us in
      if valid_datetime d then Some d else None
  | String _ _ => None
  end.

Arguments isoformat : simpl never.
Arguments fromisoformat : simpl never.

(** ** Python values *)

Inductive pyval : Type :=
| PNone
| PBool (b : bool)
| PInt (z : Z)
| PFloat (q : Q)
| PStr (s : string)
| PDatetime (d : datetime)
| PList (l : list pyval)
| PDict (kvs : list (string * pyval)).

Fixpoint dict_get (kvs : list (string * pyval)) (k : string) : option pyval :=
  match kvs with
  | [] => None
  | (k', v) :: rest => if String.eqb k' k then Some v else dict_get rest k
  end.

Fixpoint dict_set (kvs : list (string * pyval)) (k : string) (v : pyval)
  : list (string * pyval) :=
  match kvs with
  | [] => [(k, v)]
  | (k', v') :: rest =>
      if String.eqb k' k then (k', v) :: rest else (k', v') :: dict_set rest k v
  end.

Definition is_substring (needle hay : string) : bool :=
  match String.index 0 needle hay with
  | Some _ => true
  | None => false
  end.

Definition is_str (k : string) (v : pyval) : bool :=
  match v with
  | PStr s => String.eqb s k
  | _ => false
  end.

(** [k in container] for a string [k]. *)
Definition py_contains (k : string) (container : pyval) : result bool :=
  match container with
  | PDict kvs => Ok (match dict_get kvs k with Some _ => true | None => false end)
  | PList l => Ok (existsb (is_str k) l)
  | PStr s => Ok (is_substring k s)
  | _ => Raise TypeError
  end.

(** [container[k]] for a string [k]. *)
Definition py_getitem (container : pyval) (k : string) : result pyval :=
  match container with
  | PDict kvs =>
      match dict_get kvs k with
      | Some v => Ok v
      | None => Raise KeyError
      end
  | _ => Raise TypeError
  end.

(** [container[k] = v] for a string [k]. *)
Definition py_setitem (container : pyval) (k : string) (v : pyval) : result pyval :=
  match container with
  | PDict kvs => Ok (PDict (dict_set kvs k v))
  | _ => Raise TypeError
  end.

(** [for x in container]. *)
Definition py_iter (container : pyval) : result (list pyval) :=
  match container with
  | PList l => Ok l
  | PDict kvs => Ok (map (fun kv => PStr (fst kv)) kvs)
  | PStr s => Ok (map (fun c => PStr (String c EmptyString)) (list_ascii_of_string s))
  | _ => Raise TypeError
  end.

(** Truth value of an object. *)
Definition py_truthy (v : pyval) : bool :=
  match v with
  | PNone => false
  | PBool b => b
  | PInt z => negb (z =? 0)%Z
  | PFloat q => negb (Qeq_bool q 0)
  | PStr s => negb (String.eqb s EmptyString)
  | PDatetime _ => true
  | PList l => match l with [] => false | _ => true end
  | PDict kvs => match kvs with [] => false | _ => true end
  end.

(** The right operand of [float + x]. *)
Definition py_float_operand (v : pyval) : result Q :=
  match v with
  | PFloat q => Ok q
  | PInt z => Ok (inject_Z z)
  | PBool b => Ok (if b then 1%Q else 0%Q)
  | _ => Raise TypeError
  end.

(** [datetime.fromisoformat(v)] *)
Definition datetime_fromisoformat (v : pyval) : result pyval :=
  match v with
  | PStr s =>
      match fromisoformat s with
      | Some d => Ok (PDatetime d)
      | None => Raise ValueError
      end
  | _ => Raise TypeError
  end.

(** ** The JSON boundary *)

(** [_serialize_datetime]: the [default=] hook of [json.dump]. *)
Definition _serialize_datetime (obj : pyval) : result pyval :=
  match obj with
  | PDatetime d => Ok (PStr (isoformat d))
  | _ => Raise TypeError
  end.

(** [json.dump(v, f, default=_serialize_datetime)], as the JSON value that
    reaches the file: the hook is called on the objects [json] cannot
    encode itself, and its result is encoded in their place. *)
Fixpoint json_dump (v : pyval) : result pyval :=
  match v with
  | PNone | PBool _ | PInt _ | PFloat _ | PStr _ => Ok v
  | PList l =>
      l' ← (fix dump_items (l : list pyval) : result (list pyval) :=
              match l with
              | [] => Ok []
              | x :: rest =>
                  x' ← json_dump x; rest' ← dump_items rest; Ok (x' :: rest')
              end) l;
      Ok (PList l')
  | PDict kvs =>
      kvs' ← (fix dump_pairs (kvs : list (string * pyval))
                : result (list (string * pyval)) :=
                match kvs with
                | [] => Ok []
                | (k, x) :: rest =>
                    x' ← json_dump x; rest' ← dump_pairs rest; Ok ((k, x') :: rest')
                end) kvs;
      Ok (PDict kvs')
  | PDatetime _ => _serialize_datetime v
  end.

(** The body of the first loop of [_deserialize_datetime]. *)
Definition deserialize_session (session : pyval) : result pyval :=
  has ← py_contains "timestamp" session;
  if (has : bool) then
    ts ← py_getitem session "timestamp";
    d ← datetime_fromisoformat ts;
    py_setitem session "timestamp" d
  else Ok session.

(** The body of the second loop of [_deserialize_datetime]. *)
Definition deserialize_progress (progress : pyval) : result pyval :=
  has ← py_contains "last_session" progress;
  if (has : bool) then
    ls ← py_getitem progress "last_session";
    if py_truthy ls then
      d ← datetime_fromisoformat ls;
      py_setitem progress "last_session" d
    else Ok progress
  else Ok progress.

(** [for v in d.values(): body(v)], the body updating [v] in place. *)
Fixpoint for_values (body : pyval → result pyval) (kvs : list (string * pyval))
  : result (list (string * pyval)) :=
  match kvs with
  | [] => Ok []
  | (k, v) :: rest =>
      v' ← body v; rest' ← for_values body rest; Ok ((k, v') :: rest')
  end.

(** [for x in l: body(x)], the body updating [x] in place. *)
Fixpoint for_items (body : pyval → result pyval) (l : list pyval)
  : result (list pyval) :=
  match l with
  | [] => Ok []
  | x :: rest => x' ← body x; rest' ← for_items body rest; Ok (x' :: rest')
  end.

Definition _deserialize_datetime (data : pyval) : result pyval :=
  has_sessions ← py_contains "sessions" data;
  data ← (if (has_sessions : bool) then
            sessions ← py_getitem data "sessions";
            items ← py_iter sessions;
            items' ← for_items deserialize_session items;
            match sessions with
            | PList _ => py_setitem data "sessions" (PList items')
            | _ => Ok data
            end
          else Ok data);
  has_progress ← py_contains "progress" data;
  if (has_progress : bool) then
    progress ← py_getitem data "progress";
    match progress with
    | PDict kvs =>
        kvs' ← for_values deserialize_progress kvs;
        py_setitem data "progress" (PDict kvs')
    | _ => Raise AttributeError
    end
  else Ok data.

(** What [open(Config.HISTORY_FILE, 'r')] and [json.load] find: no file, a
    file that [open] cannot read (it raises [e]), text that is not JSON, or
    a JSON document. *)
Inductive file_state : Type :=
| Absent
| Unreadable (e : exn)
| NotJSON
| Document (doc : pyval).

Definition open_and_load (f : file_state) : result pyval :=
  match f with
  | Absent => Raise FileNotFoundError
  | Unreadable e => Raise e
  | NotJSON => Raise JSONDecodeError
  | Document doc => Ok doc
  end.

Definition empty_document : pyval :=
  PDict [("sessions", PList []); ("progress", PDict [])].

Definition _load_history (f : file_state) : result pyval :=
  try_except_FileNotFoundError
    (data ← open_and_load f; _deserialize_datetime data)
    (Ok empty_document).

(** ** The models of [models.py] *)

Definition py_str_list (l : list string) : pyval := PList (map PStr l).

Module Question.
Record t : Type := mk {
  question_text : string;
  correct_answer : string;
  explanation : string;
  difficulty : string;
  topic : string;
  subtopic : string
}.
End Question.

Module InterviewSession.
Record t : Type := mk {
  topic : string;
  timestamp : datetime;
  questions_asked : Z;
  correct_answers : Z;
  difficulty_level : string;
  language : string;
  areas_for_improvement : list string;
  mastered_subtopics : list string
}.

Definition model_dump (s : t) : pyval :=
  PDict [("topic", PStr (topic s));
         ("timestamp", PDatetime (timestamp s));
         ("questions_asked", PInt (questions_asked s));
         ("correct_answers", PInt (correct_answers s));
         ("difficulty_level", PStr (difficulty_level s));
         ("language", PStr (language s));
         ("areas_for_improvement", py_str_list (areas_for_improvement s));
         ("mastered_subtopics", py_str_list (mastered_subtopics s))].
End InterviewSession.

Module UserProgress.
Record t : Type := mk {
  topic : string;
  skill_level : string;
  confidence_score : Q;
  last_session : option datetime;
  language : string;
  recommended_topics : list string;
  mastered_subtopics : list string;
  subtopic_scores : gmap string Q
}.

Definition model_dump (p : t) : pyval :=
  PDict [("topic", PStr (topic p));
         ("skill_level", PStr (skill_level p));
         ("confidence_score", PFloat (confidence_score p));
         ("last_session", match last_session p with
                          | Some d => PDatetime d
                          | None => PNone
                          end);
         ("language", PStr (language p));
         ("recommended_topics", py_str_list (recommended_topics p));
         ("mastered_subtopics", py_str_list (mastered_subtopics p));
         ("subtopic_scores",
           PDict (map (fun kv => (fst kv, PFloat (snd kv)))
                      (map_to_list (subtopic_scores p))))].

(** [progress.subtopic_scores[subtopic] = score] *)
Definition set_score (subtopic : string) (score : Q) (p : t) : t :=
  mk (topic p) (skill_level p) (confidence_score p) (last_session p)
     (language p) (recommended_topics p) (mastered_subtopics p)
     (<[subtopic := score]> (subtopic_scores p)).

(** [progress.mastered_subtopics.append(subtopic)] *)
Definition append_mastered (subtopic : string) (p : t) : t :=
  mk (topic p) (skill_level p) (confidence_score p) (last_session p)
     (language p) (recommended_topics p) (mastered_subtopics p ++ [subtopic])
     (subtopic_scores p).
End UserProgress.

(** ** The service state *)

(** [self.history]: the session dictionaries in append order, and the
    progress dictionaries by key. A stored dictionary is the [model_dump] of
    a model and is read back through the model's constructor, so the record
    stands for both. *)
Record History : Type := mk_History {
  sessions : list InterviewSession.t;
  progress : gmap string UserProgress.t
}.

Definition history_dict (h : History) : pyval :=
  PDict [("sessions", PList (map InterviewSession.model_dump (sessions h)));
         ("progress",
           PDict (map (fun kv => (fst kv, UserProgress.model_dump (snd kv)))
                      (map_to_list (progress h))))].

(** An [InterviewService]: [self.history] and the file at
    [Config.HISTORY_FILE]. *)
Record InterviewService : Type := mk_InterviewService {
  history : History;
  history_file : file_state
}.

Definition _get_language_prompt (language : string) : string :=
  if String.eqb language "RU" then "Answer in Russian language."
  else "Answer in English language.".

Definition _save_history (self : InterviewService) : result InterviewService :=
  doc ← json_dump (history_dict (history self));
  Ok (mk_InterviewService (history self) (Document doc)).

Definition progress_key (topic language : string) : string :=
  topic +:+ "_" +:+ language.

Definition get_topic_progress (topic language : string) (self : InterviewService)
  : option UserProgress.t :=
  progress (history self) !! progress_key topic language.

Definition update_progress (p : UserProgress.t) (self : InterviewService)
  : result InterviewService :=
  let key := progress_key (UserProgress.topic p) (UserProgress.language p) in
  _save_history
    (mk_InterviewService
       (mk_History (sessions (history self)) (<[key := p]> (progress (history self))))
       (history_file self)).

Definition save_session (session : InterviewSession.t) (self : InterviewService)
  : result InterviewService :=
  _save_history
    (mk_InterviewService
       (mk_History (sessions (history self) ++ [session]) (progress (history self)))
       (history_file self)).

(** The mastery threshold, [0.85]. *)
Definition mastery_threshold : Q := (85 # 100)%Q.

(** Lines 121-128 of [evaluate_answer], on the progress object: the new
    score is the mean of the stored one ([0.0] when there is none) and the
    graded one, and a subtopic whose new score reaches the threshold is
    appended to the mastered ones unless it is there already. *)
Definition record_score (subtopic : string) (score : Q) (progress : UserProgress.t)
  : UserProgress.t :=
  let current_score :=
    default 0%Q (UserProgress.subtopic_scores progress !! subtopic) in
  let new_score := ((current_score + score) / 2)%Q in
  let progress := UserProgress.set_score subtopic new_score progress in
  if Qle_bool mastery_threshold new_score then
    if bool_decide (subtopic ∈ UserProgress.mastered_subtopics progress)
    then progress
    else UserProgress.append_mastered subtopic progress
  else progress.

(** [evaluate_answer], from the parsed [evaluation] on (lines 115-132): the
    score update, and the evaluation handed back to the caller. *)
Definition evaluate_answer (question : Question.t) (user_answer language : string)
    (evaluation : pyval) (self : InterviewService)
  : result (pyval * InterviewService) :=
  match get_topic_progress (Question.topic question) language self with
  | Some progress =>
      raw ← py_getitem evaluation "subtopic_score";
      score ← py_float_operand raw;
      self ← update_progress
               (record_score (Question.subtopic question) score progress) self;
      Ok (evaluation, self)
  | None => Ok (evaluation, self)
  end.

(** A run of graded answers: the question, the answer, the language and the
    parsed evaluation of each call, in call order. A call that raises does
    so before it writes, and leaves the service as it was. *)
Fixpoint evaluate_answers (calls : list (Question.t * string * string * pyval))
    (self : InterviewService) : InterviewService :=
  match calls with
  | [] => self
  | (question, user_answer, language, evaluation) :: rest =>
      match evaluate_answer question user_answer language evaluation self with
      | Ok (_, self') => evaluate_answers rest self'
      | Raise _ => evaluate_answers rest self
      end
  end.

(** A run of [save_session] calls, in call order. *)
Fixpoint save_sessions (new : list InterviewSession.t) (self : InterviewService)
  : result InterviewService :=
  match new with
  | [] => Ok self
  | session :: rest => self ← save_session session self; save_sessions rest self
  end.

(** ** The prompt of [generate_question] *)

Definition nl : string := String (ascii_of_nat 10) EmptyString.
Definition margin : string := "        ".

Definition mastered_subtopics_text (progress : option UserProgress.t) : string :=
  match progress with
  | Some p =>
      match UserProgress.mastered_subtopics p with
      | [] => EmptyString
      | mastered =>
          fold_left (fun text subtopic => text +:+ "- " +:+ subtopic +:+ nl)
                    mastered
                    (nl +:+ "Mastered subtopics (avoid these):" +:+ nl)
      end
  | None => EmptyString
  end.

(** The loop over [enumerate(previous_questions, i)]. *)
Fixpoint previous_questions_loop (i : nat) (qs : list Question.t) (text : string)
  : string :=
  match qs with
  | [] => text
  | q :: rest =>
      previous_questions_loop (S i) rest
        (text +:+ pretty i +:+ ". Question: " +:+ Question.question_text q +:+ nl
              +:+ "   Topic: " +:+ Question.topic q +:+ nl
              +:+ "   Subtopic: " +:+ Question.subtopic q +:+ nl)
  end.

(** [previous_questions] defaults to [None]. *)
Definition previous_questions_text (previous_questions : option (list Question.t))
  : string :=
  match previous_questions with
  | Some (q :: qs) =>
      previous_questions_loop 1 (q :: qs)
        (nl +:+ "Previous questions in this session:" +:+ nl)
  | _ => EmptyString
  end.

Definition prompt_requirements : list string :=
  ["Important requirements:";
   "1. The question must be significantly different from any previous questions shown above";
   "2. If previous questions covered certain subtopics, focus on different subtopics";
   "3. DO NOT generate questions about mastered subtopics listed above";
   "4. The question should be unique in both content and the specific skills it tests";
   "5. Choose a subtopic that the student hasn't mastered yet";
   "";
   "Format the response as a JSON with the following fields:";
   "- question_text";
   "- correct_answer";
   "- explanation";
   "- difficulty";
   "- topic";
   "- subtopic"].

Definition prompt_lines (lines : list string) : string :=
  fold_right (fun line text => nl +:+ margin +:+ line +:+ text) EmptyString lines.

(** The prompt [generate_question] sends (lines 47-84). *)
Definition generate_question_prompt (topic difficulty language : string)
    (previous_questions : option (list Question.t)) (self : InterviewService)
  : string :=
  let lang_prompt := _get_language_prompt language in
  let progress := get_topic_progress topic language self in
  lang_prompt +:+ nl
    +:+ margin +:+ "Generate an interview question for a Data Scientist position with the following criteria:" +:+ nl
    +:+ margin +:+ "Topic: " +:+ topic +:+ nl
    +:+ margin +:+ "Difficulty: " +:+ difficulty +:+ nl
    +:+ margin +:+ nl
    +:+ margin +:+ mastered_subtopics_text progress +:+ nl
    +:+ margin +:+ previous_questions_text previous_questions
    +:+ prompt_lines prompt_requirements.

(** ** Model construction from keyword arguments *)

Section Pydantic.
(** The field validators of pydantic, which decide what a [str], a
    [float] and a [List[str]] field accept. *)
Variable validate_str : pyval → option string.
Variable validate_float : pyval → option Q.
Variable validate_str_list : pyval → option (list string).

Definition required {A} (validate : pyval → option A)
    (kwargs : list (string * pyval)) (name : string) : result A :=
  match dict_get kwargs name with
  | Some v =>
      match validate v with
      | Some a => Ok a
      | None => Raise ValidationError
      end
  | None => Raise ValidationError
  end.

(** The keywords of a call that unpacks [v]: [v] has to be a mapping. *)
Definition py_kwargs (v : pyval) : result (list (string * pyval)) :=
  match v with
  | PDict kvs => Ok kvs
  | _ => Raise TypeError
  end.

(** [Question], called with [question_data] unpacked into keywords. *)
Definition Question_init (question_data : pyval) : result Question.t :=
  kwargs ← py_kwargs question_data;
  question_text ← required validate_str kwargs "question_text";
  correct_answer ← required validate_str kwargs "correct_answer";
  explanation ← required validate_str kwargs "explanation";
  difficulty ← required validate_str kwargs "difficulty";
  topic ← required validate_str kwargs "topic";
  subtopic ← required validate_str kwargs "subtopic";
  Ok (Question.mk question_text correct_answer explanation difficulty topic subtopic).

(** [generate_question]: the prompt that is sent, and the question built
    from the parsed reply [question_data]. *)
Definition generate_question (topic difficulty language : string)
    (previous_questions : option (list Question.t)) (question_data : pyval)
    (self : InterviewService) : string * result Question.t :=
  (generate_question_prompt topic difficulty language previous_questions self,
   Question_init question_data).

(** The keywords [analyze_performance] passes by name. *)
Definition explicit_keywords : list string :=
  ["topic"; "last_session"; "language"; "mastered_subtopics"; "subtopic_scores"].

(** [analyze_performance], from the parsed [analysis] on; [now] is
    [datetime.now()]. A keyword given by name and again by the
    unpacked [analysis] is a [TypeError]. *)
Definition analyze_performance (topic : string) (session_data : InterviewSession.t)
    (language : string) (now : datetime) (analysis : pyval)
    (self : InterviewService) : result UserProgress.t :=
  let existing_progress := get_topic_progress topic language self in
  let mastered_subtopics :=
    match existing_progress with
    | Some existing => UserProgress.mastered_subtopics existing
    | None => []
    end in
  let subtopic_scores :=
    match existing_progress with
    | Some existing => UserProgress.subtopic_scores existing
    | None => ∅
    end in
  kwargs ← py_kwargs analysis;
  if existsb (fun name => bool_decide (is_Some (dict_get kwargs name)))
             explicit_keywords
  then Raise TypeError
  else
    skill_level ← required validate_str kwargs "skill_level";
    confidence_score ← required validate_float kwargs "confidence_score";
    recommended_topics ← required validate_str_list kwargs "recommended_topics";
    Ok (UserProgress.mk topic skill_level confidence_score (Some now) language
          recommended_topics mastered_subtopics subtopic_scores).
End Pydantic.

(** ** Well-formed histories *)

Definition valid_last_session (p : UserProgress.t) : bool :=
  match UserProgress.last_session p with
  | Some d => valid_datetime d
  | None => true
  end.

(** Every timestamp of the history is one the [datetime] constructor
    accepts. *)
Definition history_timestamps_valid (h : History) : Prop :=
  Forall (fun s => valid_datetime (InterviewSession.timestamp s) = true) (sessions h) ∧
  map_Forall (fun _ p => valid_last_session p = true) (progress h).

(** ** Sample values *)

Definition sample_time : datetime := mk_datetime 2024 2 29 13 5 9 1234.

Definition sample_session : InterviewSession.t :=
  InterviewSession.mk "Python" sample_time 5 3 "Intermediate" "EN"
    ["List comprehension"; "Decorators"] [].

Definition sample_progress : UserProgress.t :=
  UserProgress.mk "Python" "Intermediate" (3 # 4) (Some sample_time) "EN"
    ["Generators"] ["List Comprehension"]
    (<["Generators" := (8 # 10)%Q]> {[ "List Comprehension" := (9 # 10)%Q ]}).

Definition sample_history : History :=
  mk_History [sample_session] {[ "Python_EN" := sample_progress ]}.

Definition sample_service : InterviewService :=
  mk_InterviewService sample_history Absent.

Definition empty_service : InterviewService :=
  mk_InterviewService (mk_History [] ∅) Absent.

Definition generators_question : Question.t :=
  Question.mk "What does yield do?" "It suspends a generator"
    "A generator function yields values lazily" "Intermediate" "Python" "Generators".

Definition sample_question : Question.t :=
  Question.mk "What are decorators in Python?"
    "Decorators are functions that modify other functions"
    "Decorators are a way to modify functions" "Intermediate" "Python" "Decorators".

(** A computation that does not raise [FileNotFoundError]. *)
Definition no_FileNotFoundError {A} (m : result A) : Prop :=
  ∀ e, m = Raise e → is_FileNotFoundError e = false.

(** Every progress record is stored under the key of its own topic and
    language: the state [update_progress], the only writer, leaves. *)
Definition well_keyed (h : History) : Prop :=
  ∀ k p, progress h !! k = Some p →
         k = progress_key (UserProgress.topic p) (UserProgress.language p).

(** Every stored subtopic score lies in [[0, 1]]. *)
Definition scores_in_unit_interval (h : History) : Prop :=
  ∀ k p s x, progress h !! k = Some p →
             UserProgress.subtopic_scores p !! s = Some x → (0 <= x ∧ x <= 1)%Q.

(** An evaluation with the given [subtopic_score]. *)
Definition evaluation_with (score : pyval) : pyval :=
  PDict [("is_correct", PBool true); ("explanation", PStr "ok");
         ("improvement_tips", PStr "none"); ("subtopic_score", score)].

(** Two records with colliding keys. *)
Definition progress_A_B__C : UserProgress.t :=
  UserProgress.mk "A_B" "Beginner" (1 # 2) None "C" [] ["x"] ∅.

Definition progress_A__B_C : UserProgress.t :=
  UserProgress.mk "A" "Advanced" (9 # 10) None "B_C" [] [] ∅.

(** [p'] has every mastered subtopic of [p], and no repetition unless [p]
    had one. *)
Definition mastery_kept (p p' : UserProgress.t) : Prop :=
  (∀ s, s ∈ UserProgress.mastered_subtopics p →
        s ∈ UserProgress.mastered_subtopics p') ∧
  (NoDup (UserProgress.mastered_subtopics p) →
   NoDup (UserProgress.mastered_subtopics p')).

(** [s] occurs in [text]. *)
Definition occurs_in (s text : string) : Prop :=
  ∃ before after, text = before +:+ s +:+ after.

(** Validators that accept the JSON strings, the JSON numbers and the JSON
    lists of strings, for the sample calls. *)
Definition json_str (v : pyval) : option string :=
  match v with
  | PStr s => Some s
  | _ => None
  end.

Definition json_float (v : pyval) : option Q :=
  match v with
  | PFloat q => Some q
  | PInt z => Some (inject_Z z)
  | _ => None
  end.

Definition json_str_list (v : pyval) : option (list string) :=
  match v with
  | PList l => mapM json_str l
  | _ => None
  end.

Definition sample_analysis : pyval :=
  PDict [("skill_level", PStr "Beginner"); ("confidence_score", PFloat (1 # 10));
         ("recommended_topics", PList [PStr "Closures"])].

(** ** More of the code: auxiliary notions *)


Definition is_datetime (v : pyval) : bool :=
  match v with
  | PDatetime _ => true
  | _ => false
  end.

(** A run of [update_progress] calls, in call order. *)
Fixpoint update_progresses (records : list UserProgress.t) (self : InterviewService)
  : result InterviewService :=
  match records with
  | [] => Ok self
  | p :: rest => self ← update_progress p self; update_progresses rest self
  end.

Definition UserProgress_key (p : UserProgress.t) : string :=
  progress_key (UserProgress.topic p) (UserProgress.language p).

(** A history file with one session, and the history it loads as. *)
Definition sample_document : pyval :=
  PDict [("sessions",
           PList [PDict [("topic", PStr "Python");
                         ("timestamp", PStr "2024-02-29T13:05:09.001234")]]);
         ("progress",
           PDict [("Python_EN", PDict [("topic", PStr "Python");
                                       ("last_session", PNone)])])].

Definition sample_loaded : pyval :=
  PDict [("sessions",
           PList [PDict [("topic", PStr "Python");
                         ("timestamp", PDatetime sample_time)]]);
         ("progress",
           PDict [("Python_EN", PDict [("topic", PStr "Python");
                                       ("last_session", PNone)])])].


(** ** The session bookkeeping of [app.py] *)

(** [Config.QUESTIONS_PER_SESSION] *)
Definition QUESTIONS_PER_SESSION : Z := 5.

(** What [st.session_state] holds under a key. *)
Inductive session_value : Type :=
| VNone
| VBool (b : bool)
| VInt (z : Z)
| VStr (s : string)
| VPy (v : pyval)
| VQuestion (q : Question.t)
| VList (l : list session_value).

(** [if key not in st.session_state: st.session_state[key] = value] *)
Definition set_default (key : string) (value : session_value)
    (state : gmap string session_value) : gmap string session_value :=
  match state !! key with
  | Some _ => state
  | None => <[key := value]> state
  end.

Definition initialize_session_state (state : gmap string session_value)
  : gmap string session_value :=
  let state := set_default "current_question" VNone state in
  let state := set_default "questions_asked" (VInt 0) state in
  let state := set_default "correct_answers" (VInt 0) state in
  let state := set_default "improvement_areas" (VList []) state in
  let state := set_default "language" (VStr "EN") state in
  let state := set_default "answer_submitted" (VBool false) state in
  let state := set_default "needs_new_question" (VBool false) state in
  let state := set_default "previous_questions" (VList []) state in
  set_default "current_answer" (VStr EmptyString) state.

Definition session_keys : list string :=
  ["current_question"; "questions_asked"; "correct_answers"; "improvement_areas";
   "language"; "answer_submitted"; "needs_new_question"; "previous_questions";
   "current_answer"].

(** The session state once every key is set, as [main] reads it. *)
Module SessionState.
Record t : Type := mk {
  current_question : option Question.t;
  questions_asked : Z;
  correct_answers : Z;
  improvement_areas : list pyval;
  language : string;
  answer_submitted : bool;
  needs_new_question : bool;
  previous_questions : list Question.t;
  current_answer : string
}.

Definition dump (s : t) : gmap string session_value :=
  <["current_question" := match current_question s with
                          | Some q => VQuestion q
                          | None => VNone
                          end]>
  (<["questions_asked" := VInt (questions_asked s)]>
  (<["correct_answers" := VInt (correct_answers s)]>
  (<["improvement_areas" := VList (map VPy (improvement_areas s))]>
  (<["language" := VStr (language s)]>
  (<["answer_submitted" := VBool (answer_submitted s)]>
  (<["needs_new_question" := VBool (needs_new_question s)]>
  (<["previous_questions" := VList (map VQuestion (previous_questions s))]>
  (<["current_answer" := VStr (current_answer s)]> ∅)))))))).

(** The state of a first run, after [initialize_session_state]. *)
Definition initial : t := mk None 0 0 [] "EN" false false [] EmptyString.
End SessionState.

(** What a piece of the script leaves behind: the session state and the
    service as they are when it returns, reruns or raises. *)
Inductive outcome : Type :=
| Returned
| Rerun
| Raised (e : exn).

Record World : Type := mk_World {
  session_state : SessionState.t;
  service : InterviewService
}.

(** [get_next_question] *)
Definition get_next_question (w : World) : World * outcome :=
  let s := session_state w in
  (mk_World
     (SessionState.mk (SessionState.current_question s) (SessionState.questions_asked s)
        (SessionState.correct_answers s) (SessionState.improvement_areas s)
        (SessionState.language s) false true (SessionState.previous_questions s)
        EmptyString)
     (service w),
   Rerun).

(** The state [main] resets to when a session is complete (lines 174-181). *)
Definition reset_session (s : SessionState.t) : SessionState.t :=
  SessionState.mk None 0 0 [] (SessionState.language s) false false [] EmptyString.

Section Script.
Variable validate_str : pyval → option string.
Variable validate_float : pyval → option Q.
Variable validate_str_list : pyval → option (list string).

(** Lines 83-94 of [main]: a new question when one is needed. The prompt
    that was sent, if any, is returned with the outcome. *)
Definition main_new_question (selected_topic difficulty : string)
    (question_data : pyval) (w : World) : World * outcome * option string :=
  let s := session_state w in
  if SessionState.needs_new_question s then
    let previous_questions :=
      match SessionState.current_question s with
      | Some q => SessionState.previous_questions s ++ [q]
      | None => SessionState.previous_questions s
      end in
    let '(prompt, question) :=
      generate_question validate_str selected_topic difficulty
        (SessionState.language s) (Some previous_questions) question_data (service w) in
    match question with
    | Ok q =>
        (mk_World
           (SessionState.mk (Some q) (SessionState.questions_asked s)
              (SessionState.correct_answers s) (SessionState.improvement_areas s)
              (SessionState.language s) (SessionState.answer_submitted s) false
              previous_questions (SessionState.current_answer s))
           (service w),
         Returned, Some prompt)
    | Raise e =>
        (mk_World
           (SessionState.mk (SessionState.current_question s)
              (SessionState.questions_asked s) (SessionState.correct_answers s)
              (SessionState.improvement_areas s) (SessionState.language s)
              (SessionState.answer_submitted s) true previous_questions
              (SessionState.current_answer s))
           (service w),
         Raised e, Some prompt)
    end
  else (w, Returned, None).

(** Lines 97-102 of [main]: the start button, shown while there is no
    current question. *)
Definition main_start (clicked : bool) (w : World) : World * outcome :=
  let s := session_state w in
  match SessionState.current_question s with
  | None =>
      if clicked then
        (mk_World
           (SessionState.mk None (SessionState.questions_asked s)
              (SessionState.correct_answers s) (SessionState.improvement_areas s)
              (SessionState.language s) (SessionState.answer_submitted s) true []
              EmptyString)
           (service w),
         Rerun)
      else (w, Returned)
  | Some _ => (w, Returned)
  end.

(** [st.session_state.correct_answers += 1] *)
Definition count_correct (s : SessionState.t) : SessionState.t :=
  SessionState.mk (SessionState.current_question s) (SessionState.questions_asked s)
    (SessionState.correct_answers s + 1) (SessionState.improvement_areas s)
    (SessionState.language s) (SessionState.answer_submitted s)
    (SessionState.needs_new_question s) (SessionState.previous_questions s)
    (SessionState.current_answer s).

(** [st.session_state.questions_asked += 1] *)
Definition count_asked (s : SessionState.t) : SessionState.t :=
  SessionState.mk (SessionState.current_question s) (SessionState.questions_asked s + 1)
    (SessionState.correct_answers s) (SessionState.improvement_areas s)
    (SessionState.language s) (SessionState.answer_submitted s)
    (SessionState.needs_new_question s) (SessionState.previous_questions s)
    (SessionState.current_answer s).

(** [st.session_state.improvement_areas.append(tips)] *)
Definition note_improvement (tips : pyval) (s : SessionState.t) : SessionState.t :=
  SessionState.mk (SessionState.current_question s) (SessionState.questions_asked s)
    (SessionState.correct_answers s) (SessionState.improvement_areas s ++ [tips])
    (SessionState.language s) (SessionState.answer_submitted s)
    (SessionState.needs_new_question s) (SessionState.previous_questions s)
    (SessionState.current_answer s).

(** [st.session_state.answer_submitted = True] *)
Definition mark_submitted (s : SessionState.t) : SessionState.t :=
  SessionState.mk (SessionState.current_question s) (SessionState.questions_asked s)
    (SessionState.correct_answers s) (SessionState.improvement_areas s)
    (SessionState.language s) true
    (SessionState.needs_new_question s) (SessionState.previous_questions s)
    (SessionState.current_answer s).

(** Lines 152-188 of [main]: the end of a session, once the counters are
    updated. [now] is the session's timestamp and [analysed_at] the
    [datetime.now()] of [analyze_performance]. *)
Definition main_finish (selected_topic difficulty : string) (now analysed_at : datetime)
    (analysis : pyval) (w : World) : World * outcome :=
  let s := session_state w in
  if (QUESTIONS_PER_SESSION <=? SessionState.questions_asked s)%Z then
    match validate_str_list (PList (SessionState.improvement_areas s)) with
    | None => (w, Raised ValidationError)
    | Some areas =>
        let session :=
          InterviewSession.mk selected_topic now (SessionState.questions_asked s)
            (SessionState.correct_answers s) difficulty (SessionState.language s)
            areas [] in
        match save_session session (service w) with
        | Raise e => (w, Raised e)
        | Ok service1 =>
            match analyze_performance validate_str validate_float validate_str_list
                    selected_topic session (SessionState.language s) analysed_at
                    analysis service1 with
            | Raise e => (mk_World s service1, Raised e)
            | Ok progress =>
                match update_progress progress service1 with
                | Raise e => (mk_World s service1, Raised e)
                | Ok service2 => (mk_World (reset_session s) service2, Rerun)
                end
            end
        end
    end
  else (w, Returned).

(** Lines 123-188 of [main]: the submit button, shown while the current
    question has no submitted answer. The state is updated statement by
    statement, so a statement that raises leaves what the earlier ones
    did. *)
Definition main_submit (clicked : bool) (selected_topic difficulty user_answer : string)
    (evaluation : pyval) (now analysed_at : datetime) (analysis : pyval) (w : World)
  : World * outcome :=
  let s := session_state w in
  match SessionState.current_question s with
  | None => (w, Returned)
  | Some question =>
      if SessionState.answer_submitted s || negb clicked then (w, Returned)
      else
        match evaluate_answer question user_answer (SessionState.language s)
                evaluation (service w) with
        | Raise e => (w, Raised e)
        | Ok (evaluation, service1) =>
            match py_getitem evaluation "is_correct" with
            | Raise e => (mk_World s service1, Raised e)
            | Ok is_correct =>
                let s := if py_truthy is_correct then count_correct s else s in
                match py_getitem evaluation "explanation" with
                | Raise e => (mk_World s service1, Raised e)
                | Ok _ =>
                    match py_getitem evaluation "improvement_tips" with
                    | Raise e => (mk_World s service1, Raised e)
                    | Ok _ =>
                        let s := count_asked s in
                        match py_contains "improvement_tips" evaluation with
                        | Raise e => (mk_World s service1, Raised e)
                        | Ok has_tips =>
                            match
                              (if (has_tips : bool) then
                                 tips ← py_getitem evaluation "improvement_tips";
                                 Ok (note_improvement tips s)
                               else Ok s)
                            with
                            | Raise e => (mk_World s service1, Raised e)
                            | Ok s =>
                                main_finish selected_topic difficulty now analysed_at
                                  analysis (mk_World (mark_submitted s) service1)
                            end
                        end
                    end
                end
            end
        end
  end.

(** Lines 191-193 of [main]: the button for the next question. *)
Definition main_next (clicked : bool) (w : World) : World * outcome :=
  let s := session_state w in
  if SessionState.answer_submitted s
     && (SessionState.questions_asked s <? QUESTIONS_PER_SESSION)%Z
     && clicked
  then get_next_question w
  else (w, Returned).
End Script.

(** The counters of a running session: no more correct answers than
    answers, fewer answers than a session has questions, and one
    improvement note per answer. *)
Definition counters_consistent (s : SessionState.t) : Prop :=
  (0 <= SessionState.correct_answers s)%Z ∧
  (SessionState.correct_answers s <= SessionState.questions_asked s)%Z ∧
  (SessionState.questions_asked s < QUESTIONS_PER_SESSION)%Z ∧
  Z.of_nat (length (SessionState.improvement_areas s)) = SessionState.questions_asked s.

Definition sample_world : World :=
  mk_World
    (SessionState.mk (Some generators_question) 4 3
       [PStr "a"; PStr "b"; PStr "c"; PStr "d"] "EN" false false [sample_question]
       EmptyString)
    sample_service.

Definition early_world : World :=
  mk_World
    (SessionState.mk (Some generators_question) 1 1 [PStr "a"] "EN" false false
       [sample_question] EmptyString)
    sample_service.

(** * Properties *)

(** ** Timestamps survive the ISO-8601 text *)

Lemma digit_value_char (d : N) : (d < 10)%N → digit_value (digit_char d) = Some d.
Proof.
  intros Hd. unfold digit_value, digit_char.
  rewrite N_ascii_embedding by lia.
  replace ((48 <=? 48 + d)%N) with true by (symmetry; apply N.leb_le; lia).
  replace ((48 + d <=? 57)%N) with true by (symmetry; apply N.leb_le; lia).
  simpl. f_equal. lia.
Qed.

Lemma read_digits_zfill (k : nat) : ∀ (n : N) (rest : string) (acc : N),
  read_digits k (zfill k n rest) acc
  = Some ((acc * 10 ^ N.of_nat k + n mod 10 ^ N.of_nat k)%N, rest).
Proof.
  induction k as [|k IH]; intros n rest acc.
  - simpl. rewrite N.mod_1_r. do 2 f_equal. lia.
  - cbn [zfill read_digits].
    rewrite digit_value_char by (apply N.mod_lt; lia).
    rewrite IH. do 2 f_equal.
    rewrite Nat2N.inj_succ, N.pow_succ_r'.
    rewrite (N.mul_comm 10 (10 ^ N.of_nat k)).
    rewrite N.Div0.mod_mul_r. lia.
Qed.

Lemma read_digits_field (k : nat) (n : N) (rest : string) :
  (n < 10 ^ N.of_nat k)%N → read_digits k (zfill k n rest) 0 = Some (n, rest).
Proof.
  intros Hn. rewrite read_digits_zfill. rewrite N.mod_small by exact Hn.
  do 2 f_equal.
Qed.

Lemma valid_datetime_bounds (d : datetime) :
  valid_datetime d = true →
  (year d < 10 ^ 4 ∧ month d < 10 ^ 2 ∧ day d < 10 ^ 2 ∧ hour d < 10 ^ 2 ∧
   minute d < 10 ^ 2 ∧ second d < 10 ^ 2 ∧ microsecond d < 10 ^ 6)%N.
Proof.
  unfold valid_datetime. rewrite !andb_true_iff.
  rewrite !N.leb_le, !N.ltb_lt.
  intros [[[[[[[[[H1 H2] H3] H4] H5] H6] H7] H8] H9] H10].
  assert (days_in_month (year d) (month d) <= 31)%N.
  { unfold days_in_month. repeat (destruct (_ : bool); try lia). }
  change (10 ^ 4)%N with 10000%N. change (10 ^ 2)%N with 100%N.
  change (10 ^ 6)%N with 1000000%N. lia.
Qed.

Lemma fromisoformat_isoformat (d : datetime) :
  valid_datetime d = true → fromisoformat (isoformat d) = Some d.
Proof.
  intros Hv. destruct (valid_datetime_bounds d Hv) as (Hy & Hmo & Hd & Hh & Hmi & Hs & Hus).
  unfold fromisoformat, isoformat.
  rewrite (read_digits_field 4) by exact Hy.
  cbn [mbind option_bind expect Ascii.eqb Bool.eqb].
  do 5 (rewrite (read_digits_field 2) by assumption;
        cbn [mbind option_bind expect Ascii.eqb Bool.eqb]).
  destruct (microsecond d =? 0)%N eqn:Hz.
  - cbn [mbind option_bind]. apply N.eqb_eq in Hz.
    destruct d as [y mo dd hh mi ss us]; simpl in *. subst us.
    rewrite Hv. reflexivity.
  - cbn [mbind option_bind Ascii.eqb Bool.eqb].
    rewrite (read_digits_field 6) by exact Hus.
    cbn [mbind option_bind].
    destruct d as [y mo dd hh mi ss us]; simpl in *.
    rewrite Hv. reflexivity.
Qed.

(** ** The history survives [json.dump] and [_deserialize_datetime] *)

Lemma json_dump_list (l : list pyval) :
  json_dump (PList l) = (l' ← for_items json_dump l; Ok (PList l')).
Proof.
  cbn [json_dump]. f_equal.
  induction l as [|x l IH]; [reflexivity|].
  cbn [for_items]. rewrite <- IH. reflexivity.
Qed.

Lemma json_dump_dict (kvs : list (string * pyval)) :
  json_dump (PDict kvs) = (kvs' ← for_values json_dump kvs; Ok (PDict kvs')).
Proof.
  cbn [json_dump]. f_equal.
  induction kvs as [|[k x] kvs IH]; [reflexivity|].
  cbn [for_values]. rewrite <- IH. reflexivity.
Qed.

Lemma json_dump_str_list (l : list string) :
  json_dump (py_str_list l) = Ok (py_str_list l).
Proof.
  unfold py_str_list. rewrite json_dump_list.
  assert (H : for_items json_dump (map PStr l) = Ok (map PStr l)).
  { induction l as [|s l IH]; [reflexivity|].
    cbn [map for_items json_dump mbind result_bind]. rewrite IH. reflexivity. }
  rewrite H. reflexivity.
Qed.

Lemma json_dump_scores (l : list (string * Q)) :
  json_dump (PDict (map (fun kv => (fst kv, PFloat (snd kv))) l))
  = Ok (PDict (map (fun kv => (fst kv, PFloat (snd kv))) l)).
Proof.
  rewrite json_dump_dict.
  assert (H : for_values json_dump (map (fun kv => (fst kv, PFloat (snd kv))) l)
              = Ok (map (fun kv => (fst kv, PFloat (snd kv))) l)).
  { induction l as [|[k q] l IH]; [reflexivity|].
    cbn [map for_values json_dump mbind result_bind fst snd]. rewrite IH. reflexivity. }
  rewrite H. reflexivity.
Qed.

Lemma isoformat_not_empty (d : datetime) : String.eqb (isoformat d) EmptyString = false.
Proof. reflexivity. Qed.

Lemma datetime_fromisoformat_isoformat (d : datetime) :
  valid_datetime d = true →
  datetime_fromisoformat (PStr (isoformat d)) = Ok (PDatetime d).
Proof.
  intros Hv. unfold datetime_fromisoformat.
  rewrite (fromisoformat_isoformat d Hv). reflexivity.
Qed.

Lemma session_round_trip (s : InterviewSession.t) :
  valid_datetime (InterviewSession.timestamp s) = true →
  ∃ doc, json_dump (InterviewSession.model_dump s) = Ok doc ∧
         deserialize_session doc = Ok (InterviewSession.model_dump s).
Proof.
  intros Hv. unfold InterviewSession.model_dump.
  rewrite json_dump_dict. cbn [for_values mbind result_bind].
  rewrite !json_dump_str_list.
  cbn [json_dump _serialize_datetime mbind result_bind].
  eexists. split; [reflexivity|].
  unfold deserialize_session. cbn -[datetime_fromisoformat isoformat].
  rewrite (datetime_fromisoformat_isoformat _ Hv). reflexivity.
Qed.

Lemma progress_round_trip (p : UserProgress.t) :
  valid_last_session p = true →
  ∃ doc, json_dump (UserProgress.model_dump p) = Ok doc ∧
         deserialize_progress doc = Ok (UserProgress.model_dump p).
Proof.
  unfold valid_last_session, UserProgress.model_dump. intros Hv.
  rewrite json_dump_dict. cbn [for_values mbind result_bind].
  rewrite !json_dump_str_list, json_dump_scores.
  destruct (UserProgress.last_session p) as [d|].
  - cbn [json_dump _serialize_datetime mbind result_bind].
    eexists. split; [reflexivity|].
    unfold deserialize_progress. cbn -[datetime_fromisoformat isoformat].
    rewrite isoformat_not_empty. cbn -[datetime_fromisoformat isoformat].
    rewrite (datetime_fromisoformat_isoformat _ Hv). reflexivity.
  - cbn [json_dump mbind result_bind].
    eexists. split; [reflexivity|]. reflexivity.
Qed.

Lemma sessions_round_trip (ss : list InterviewSession.t) :
  Forall (fun s => valid_datetime (InterviewSession.timestamp s) = true) ss →
  ∃ docs, for_items json_dump (map InterviewSession.model_dump ss) = Ok docs ∧
          for_items deserialize_session docs
          = Ok (map InterviewSession.model_dump ss).
Proof.
  induction 1 as [|s ss Hs _ IH].
  - exists []. split; reflexivity.
  - destruct IH as (docs & Hdump & Hload).
    destruct (session_round_trip s Hs) as (doc & Hd & Hl).
    exists (doc :: docs). cbn [map for_items]. rewrite Hd, Hdump, Hl, Hload.
    split; reflexivity.
Qed.

Lemma progress_map_round_trip (kvs : list (string * UserProgress.t)) :
  Forall (fun kv => valid_last_session (snd kv) = true) kvs →
  ∃ docs,
    for_values json_dump (map (fun kv => (fst kv, UserProgress.model_dump (snd kv))) kvs)
    = Ok docs ∧
    for_values deserialize_progress docs
    = Ok (map (fun kv => (fst kv, UserProgress.model_dump (snd kv))) kvs).
Proof.
  induction 1 as [|[k p] kvs Hp _ IH].
  - exists []. split; reflexivity.
  - destruct IH as (docs & Hdump & Hload).
    destruct (progress_round_trip p Hp) as (doc & Hd & Hl).
    exists ((k, doc) :: docs). cbn [map for_values fst snd].
    rewrite Hd, Hdump, Hl, Hload. split; reflexivity.
Qed.

Lemma history_round_trip (h : History) :
  history_timestamps_valid h →
  ∃ doc, json_dump (history_dict h) = Ok doc ∧
         _deserialize_datetime doc = Ok (history_dict h).
Proof.
  intros [Hs Hp].
  destruct (sessions_round_trip _ Hs) as (sdocs & Hsd & Hsl).
  assert (Hp' : Forall (fun kv : string * UserProgress.t => valid_last_session (snd kv) = true)
                       (map_to_list (progress h))).
  { apply map_Forall_to_list in Hp. eapply Forall_impl; [exact Hp|].
    intros [k p]; auto. }
  destruct (progress_map_round_trip _ Hp') as (pdocs & Hpd & Hpl).
  unfold history_dict. rewrite json_dump_dict.
  cbn [for_values mbind result_bind].
  rewrite json_dump_list, Hsd. cbn [mbind result_bind].
  rewrite json_dump_dict, Hpd. cbn [mbind result_bind].
  eexists. split; [reflexivity|].
  unfold _deserialize_datetime.
  cbn -[for_items for_values].
  rewrite Hsl. cbn -[for_items for_values]. rewrite Hpl. reflexivity.
Qed.

(** C5. Every timestamp of a history is read back unchanged: the ISO-8601
    text of each session [timestamp] and of each [last_session] parses to
    the same [datetime], and [_deserialize_datetime] applied to the document
    that [json.dump] writes with [_serialize_datetime] gives back the
    history, timestamps included. *)
Theorem timestamp_round_trip (h : History) :
  history_timestamps_valid h →
  (∀ s, s ∈ sessions h →
        fromisoformat (isoformat (InterviewSession.timestamp s))
        = Some (InterviewSession.timestamp s)) ∧
  (∀ k p d, progress h !! k = Some p → UserProgress.last_session p = Some d →
            fromisoformat (isoformat d) = Some d) ∧
  (∃ doc, json_dump (history_dict h) = Ok doc ∧
          _deserialize_datetime doc = Ok (history_dict h)).
Proof.
  intros Hv. split; [|split].
  - intros s Hs. destruct Hv as [Hss _].
    rewrite Forall_forall in Hss. apply fromisoformat_isoformat, Hss, Hs.
  - intros k p d Hk Hd. destruct Hv as [_ Hpp].
    specialize (Hpp k p Hk). unfold valid_last_session in Hpp.
    rewrite Hd in Hpp. apply fromisoformat_isoformat, Hpp.
  - apply history_round_trip, Hv.
Qed.

Lemma sample_history_valid : history_timestamps_valid sample_history.
Proof.
  split.
  - repeat constructor.
  - apply map_Forall_singleton. reflexivity.
Qed.

Lemma timestamp_round_trip_witness :
  ∃ doc, json_dump (history_dict sample_history) = Ok doc ∧
         _deserialize_datetime doc = Ok (history_dict sample_history).
Proof.
  exact (proj2 (proj2 (timestamp_round_trip sample_history sample_history_valid))).
Defined.

(** ** Loading the history *)

Lemma no_fnf_ok {A} (a : A) : no_FileNotFoundError (Ok a).
Proof. intros e H. discriminate H. Qed.

Lemma no_fnf_raise {A} (e : exn) :
  is_FileNotFoundError e = false → no_FileNotFoundError (@Raise A e).
Proof. intros He e' H. injection H as <-. exact He. Qed.

Lemma no_fnf_bind {A B} (m : result A) (f : A → result B) :
  no_FileNotFoundError m → (∀ a, no_FileNotFoundError (f a)) →
  no_FileNotFoundError (m ≫= f).
Proof.
  intros Hm Hf e H. destruct m as [a|e']; cbn in H.
  - exact (Hf a e H).
  - injection H as <-. apply Hm. reflexivity.
Qed.

Lemma no_fnf_py_contains k c : no_FileNotFoundError (py_contains k c).
Proof. destruct c; first [apply no_fnf_ok | apply no_fnf_raise; reflexivity]. Qed.

Lemma no_fnf_py_getitem c k : no_FileNotFoundError (py_getitem c k).
Proof.
  destruct c; cbn; try (apply no_fnf_raise; reflexivity).
  destruct (dict_get kvs k); [apply no_fnf_ok | apply no_fnf_raise; reflexivity].
Qed.

Lemma no_fnf_py_setitem c k v : no_FileNotFoundError (py_setitem c k v).
Proof. destruct c; first [apply no_fnf_ok | apply no_fnf_raise; reflexivity]. Qed.

Lemma no_fnf_py_iter c : no_FileNotFoundError (py_iter c).
Proof. destruct c; first [apply no_fnf_ok | apply no_fnf_raise; reflexivity]. Qed.

Lemma no_fnf_datetime_fromisoformat v :
  no_FileNotFoundError (datetime_fromisoformat v).
Proof.
  destruct v; cbn; try (apply no_fnf_raise; reflexivity).
  destruct (fromisoformat s); [apply no_fnf_ok | apply no_fnf_raise; reflexivity].
Qed.

Lemma no_fnf_for_items body l :
  (∀ x, no_FileNotFoundError (body x)) → no_FileNotFoundError (for_items body l).
Proof.
  intros Hb. induction l as [|x l IH]; cbn [for_items]; [apply no_fnf_ok|].
  apply no_fnf_bind; [apply Hb|]. intros x'.
  apply no_fnf_bind; [apply IH|]. intros l'. apply no_fnf_ok.
Qed.

Lemma no_fnf_for_values body kvs :
  (∀ x, no_FileNotFoundError (body x)) → no_FileNotFoundError (for_values body kvs).
Proof.
  intros Hb. induction kvs as [|[k x] kvs IH]; cbn [for_values]; [apply no_fnf_ok|].
  apply no_fnf_bind; [apply Hb|]. intros x'.
  apply no_fnf_bind; [apply IH|]. intros l'. apply no_fnf_ok.
Qed.

Lemma no_fnf_deserialize_session x : no_FileNotFoundError (deserialize_session x).
Proof.
  unfold deserialize_session.
  apply no_fnf_bind; [apply no_fnf_py_contains|]. intros [|]; [|apply no_fnf_ok].
  apply no_fnf_bind; [apply no_fnf_py_getitem|]. intros ts.
  apply no_fnf_bind; [apply no_fnf_datetime_fromisoformat|]. intros d.
  apply no_fnf_py_setitem.
Qed.

Lemma no_fnf_deserialize_progress x : no_FileNotFoundError (deserialize_progress x).
Proof.
  unfold deserialize_progress.
  apply no_fnf_bind; [apply no_fnf_py_contains|]. intros [|]; [|apply no_fnf_ok].
  apply no_fnf_bind; [apply no_fnf_py_getitem|]. intros ls.
  destruct (py_truthy ls); [|apply no_fnf_ok].
  apply no_fnf_bind; [apply no_fnf_datetime_fromisoformat|]. intros d.
  apply no_fnf_py_setitem.
Qed.

Lemma no_fnf_deserialize_datetime data :
  no_FileNotFoundError (_deserialize_datetime data).
Proof.
  unfold _deserialize_datetime.
  apply no_fnf_bind; [apply no_fnf_py_contains|]. intros has_sessions.
  apply no_fnf_bind.
  - destruct has_sessions; [|apply no_fnf_ok].
    apply no_fnf_bind; [apply no_fnf_py_getitem|]. intros ss.
    apply no_fnf_bind; [apply no_fnf_py_iter|]. intros items.
    apply no_fnf_bind; [apply no_fnf_for_items, no_fnf_deserialize_session|].
    intros items'. destruct ss; first [apply no_fnf_ok | apply no_fnf_py_setitem].
  - intros data'.
    apply no_fnf_bind; [apply no_fnf_py_contains|]. intros [|]; [|apply no_fnf_ok].
    apply no_fnf_bind; [apply no_fnf_py_getitem|]. intros p.
    destruct p; try (apply no_fnf_raise; reflexivity).
    apply no_fnf_bind; [apply no_fnf_for_values, no_fnf_deserialize_progress|].
    intros kvs'. apply no_fnf_py_setitem.
Qed.

Lemma try_except_no_fnf {A} (body handler : result A) :
  no_FileNotFoundError body → try_except_FileNotFoundError body handler = body.
Proof.
  intros Hb. destruct body as [a|e]; [reflexivity|].
  cbn. rewrite (Hb e eq_refl). reflexivity.
Qed.

(** C6. [_load_history] gives the empty state when the file is absent, and
    in every other case does what reading, parsing and
    [_deserialize_datetime] do: an error of [open] other than
    [FileNotFoundError], text that is not JSON, and an error raised while
    the timestamps are decoded all reach the caller; the handler's empty
    state is returned for no failure but the absent file. *)
Theorem load_history_absent_or_fatal :
  _load_history Absent = Ok empty_document ∧
  (∀ e, _load_history (Unreadable e)
        = if is_FileNotFoundError e then Ok empty_document else Raise e) ∧
  _load_history NotJSON = Raise JSONDecodeError ∧
  (∀ doc, _load_history (Document doc) = _deserialize_datetime doc) ∧
  (∀ f e, (data ← open_and_load f; _deserialize_datetime data) = Raise e →
          _load_history f
          = if is_FileNotFoundError e then Ok empty_document else Raise e) ∧
  (∀ f e, (data ← open_and_load f; _deserialize_datetime data) = Raise e →
          is_FileNotFoundError e = true → f = Absent ∨ f = Unreadable FileNotFoundError).
Proof.
  split; [reflexivity|]. split; [intros e; destruct e; reflexivity|].
  split; [reflexivity|]. split; [|split].
  - intros doc. unfold _load_history. cbn [open_and_load mbind result_bind].
    apply try_except_no_fnf, no_fnf_deserialize_datetime.
  - intros f e H. unfold _load_history. rewrite H. reflexivity.
  - intros f e H He. destruct f as [|e'| |doc]; cbn in H.
    + left; reflexivity.
    + injection H as ->. destruct e; try discriminate He. right; reflexivity.
    + injection H as <-. discriminate He.
    + rewrite (no_fnf_deserialize_datetime doc e H) in He. discriminate He.
Qed.

(** ** Saving never fails *)

Lemma json_dump_total : ∀ v, ∃ doc, json_dump v = Ok doc.
Proof.
  fix IH 1. intros [ |b|z|q|s|d|l|kvs]; try (eexists; reflexivity).
  - rewrite json_dump_list.
    assert (H : ∃ l', for_items json_dump l = Ok l').
    { revert l. fix IHl 1. intros [|x l].
      - exists []. reflexivity.
      - destruct (IH x) as [x' Hx]. destruct (IHl l) as [l' Hl].
        exists (x' :: l'). cbn [for_items]. rewrite Hx, Hl. reflexivity. }
    destruct H as [l' Hl]. rewrite Hl. eexists. reflexivity.
  - rewrite json_dump_dict.
    assert (H : ∃ kvs', for_values json_dump kvs = Ok kvs').
    { revert kvs. fix IHl 1. intros [|[k x] kvs].
      - exists []. reflexivity.
      - destruct (IH x) as [x' Hx]. destruct (IHl kvs) as [kvs' Hl].
        exists ((k, x') :: kvs'). cbn [for_values]. rewrite Hx, Hl. reflexivity. }
    destruct H as [kvs' Hl]. rewrite Hl. eexists. reflexivity.
Qed.

Lemma _save_history_ok (self : InterviewService) :
  ∃ doc, json_dump (history_dict (history self)) = Ok doc ∧
         _save_history self = Ok (mk_InterviewService (history self) (Document doc)).
Proof.
  destruct (json_dump_total (history_dict (history self))) as [doc Hdoc].
  exists doc. split; [exact Hdoc|]. unfold _save_history. rewrite Hdoc. reflexivity.
Qed.

Lemma update_progress_ok (p : UserProgress.t) (self : InterviewService) :
  ∃ self', update_progress p self = Ok self' ∧
    sessions (history self') = sessions (history self) ∧
    progress (history self')
    = <[progress_key (UserProgress.topic p) (UserProgress.language p) := p]>
        (progress (history self)) ∧
    ∃ doc, history_file self' = Document doc ∧
           json_dump (history_dict (history self')) = Ok doc.
Proof.
  unfold update_progress.
  match goal with |- context [_save_history ?s] =>
    destruct (_save_history_ok s) as (doc & Hdoc & Hsave) end.
  rewrite Hsave. eexists. split; [reflexivity|]. cbn.
  split; [reflexivity|]. split; [reflexivity|]. exists doc. split; [reflexivity|exact Hdoc].
Qed.

Lemma save_session_ok (session : InterviewSession.t) (self : InterviewService) :
  ∃ self', save_session session self = Ok self' ∧
    sessions (history self') = sessions (history self) ++ [session] ∧
    progress (history self') = progress (history self) ∧
    ∃ doc, history_file self' = Document doc ∧
           json_dump (history_dict (history self')) = Ok doc.
Proof.
  unfold save_session.
  match goal with |- context [_save_history ?s] =>
    destruct (_save_history_ok s) as (doc & Hdoc & Hsave) end.
  rewrite Hsave. eexists. split; [reflexivity|]. cbn.
  split; [reflexivity|]. split; [reflexivity|]. exists doc. split; [reflexivity|exact Hdoc].
Qed.

(** ** The progress store *)

Lemma well_keyed_empty : well_keyed (mk_History [] ∅).
Proof. intros k p H. cbn in H. rewrite lookup_empty in H. discriminate H. Qed.

Lemma well_keyed_update_progress p self self' :
  well_keyed (history self) → update_progress p self = Ok self' →
  well_keyed (history self').
Proof.
  intros Hwk Hup. destruct (update_progress_ok p self) as (s & Hs & _ & Hp & _).
  rewrite Hs in Hup. injection Hup as <-.
  intros k q Hk. rewrite Hp in Hk.
  destruct (decide (progress_key (UserProgress.topic p) (UserProgress.language p) = k))
    as [<-|Hne].
  - rewrite lookup_insert_eq in Hk. injection Hk as <-. reflexivity.
  - rewrite lookup_insert_ne in Hk by exact Hne. apply Hwk, Hk.
Qed.

Lemma well_keyed_save_session session self self' :
  well_keyed (history self) → save_session session self = Ok self' →
  well_keyed (history self').
Proof.
  intros Hwk Hsv. destruct (save_session_ok session self) as (s & Hs & _ & Hp & _).
  rewrite Hs in Hsv. injection Hsv as <-.
  intros k q Hk. rewrite Hp in Hk. apply Hwk, Hk.
Qed.



(** C10. The key ["{topic}_{language}"] does not separate (topic, language)
    pairs: ["A_B"], ["C"] and ["A"], ["B_C"] are different pairs with one
    key. A record written for the first pair is what [get_topic_progress]
    returns for the second, and a later write for the second pair replaces
    it, so that the first pair reads the second pair's record. *)
Theorem progress_key_collision (self : InterviewService) :
  ("A_B", "C") ≠ ("A", "B_C") ∧
  progress_key "A_B" "C" = progress_key "A" "B_C" ∧
  ∃ self1 self2,
    update_progress progress_A_B__C self = Ok self1 ∧
    get_topic_progress "A" "B_C" self1 = Some progress_A_B__C ∧
    update_progress progress_A__B_C self1 = Ok self2 ∧
    get_topic_progress "A_B" "C" self2 = Some progress_A__B_C ∧
    get_topic_progress "A" "B_C" self2 = Some progress_A__B_C.
Proof.
  split; [discriminate|]. split; [reflexivity|].
  destruct (update_progress_ok progress_A_B__C self) as (self1 & H1 & _ & Hp1 & _).
  destruct (update_progress_ok progress_A__B_C self1) as (self2 & H2 & _ & Hp2 & _).
  exists self1, self2. unfold get_topic_progress.
  rewrite Hp2, Hp1. cbn [UserProgress.topic UserProgress.language
                          progress_A_B__C progress_A__B_C].
  change (progress_key "A" "B_C") with (progress_key "A_B" "C").
  rewrite !lookup_insert_eq. auto.
Qed.

(** ** The session list *)

Lemma save_sessions_ok (new : list InterviewSession.t) : ∀ self : InterviewService,
  ∃ self', save_sessions new self = Ok self' ∧
    sessions (history self') = sessions (history self) ++ new ∧
    progress (history self') = progress (history self).
Proof.
  induction new as [|session new IH]; intros self.
  - exists self. cbn. rewrite app_nil_r. auto.
  - destruct (save_session_ok session self) as (self1 & H1 & Hs1 & Hp1 & _).
    destruct (IH self1) as (self' & H' & Hs' & Hp').
    exists self'. cbn [save_sessions]. rewrite H1. cbn [mbind result_bind].
    split; [exact H'|]. split.
    + rewrite Hs', Hs1, <- app_assoc. reflexivity.
    + rewrite Hp', Hp1. reflexivity.
Qed.

(** C8. [save_session] only appends: after the calls for the sessions [new],
    in call order, the stored list is the old list followed by [new]. Its
    length grew by the number of calls, every old entry is at its old
    position with its old value, and the entry at position
    [length old + i] is the session of the [i]-th call. *)
Theorem save_session_append_only (new : list InterviewSession.t)
    (self : InterviewService) :
  ∃ self', save_sessions new self = Ok self' ∧
    sessions (history self') = sessions (history self) ++ new ∧
    length (sessions (history self'))
    = (length (sessions (history self)) + length new)%nat ∧
    (∀ i s, sessions (history self) !! i = Some s →
            sessions (history self') !! i = Some s) ∧
    (∀ i, sessions (history self') !! (length (sessions (history self)) + i)%nat
          = new !! i).
Proof.
  destruct (save_sessions_ok new self) as (self' & H & Hs & _).
  exists self'. split; [exact H|]. split; [exact Hs|]. rewrite Hs.
  split; [apply length_app|]. split.
  - intros i s Hi. apply lookup_app_l_Some. exact Hi.
  - intros i. rewrite lookup_app_r by lia. f_equal. lia.
Qed.

(** ** Grading an answer *)

Lemma record_score_topic s r p :
  UserProgress.topic (record_score s r p) = UserProgress.topic p.
Proof. unfold record_score. repeat case_match; reflexivity. Qed.

Lemma record_score_language s r p :
  UserProgress.language (record_score s r p) = UserProgress.language p.
Proof. unfold record_score. repeat case_match; reflexivity. Qed.

Lemma record_score_scores s r p :
  UserProgress.subtopic_scores (record_score s r p)
  = <[s := ((default 0%Q (UserProgress.subtopic_scores p !! s) + r) / 2)%Q]>
      (UserProgress.subtopic_scores p).
Proof. unfold record_score. repeat case_match; reflexivity. Qed.

Lemma record_score_mastered s r p :
  UserProgress.mastered_subtopics (record_score s r p)
  = if Qle_bool mastery_threshold
         ((default 0%Q (UserProgress.subtopic_scores p !! s) + r) / 2)%Q
    then if bool_decide (s ∈ UserProgress.mastered_subtopics p)
         then UserProgress.mastered_subtopics p
         else UserProgress.mastered_subtopics p ++ [s]
    else UserProgress.mastered_subtopics p.
Proof. unfold record_score. cbn. repeat case_match; reflexivity. Qed.

Lemma record_score_keeps s r p x :
  x ∈ UserProgress.mastered_subtopics p →
  x ∈ UserProgress.mastered_subtopics (record_score s r p).
Proof.
  intros Hx. rewrite record_score_mastered. repeat case_match; try exact Hx.
  apply elem_of_app. left. exact Hx.
Qed.

Lemma record_score_NoDup s r p :
  NoDup (UserProgress.mastered_subtopics p) →
  NoDup (UserProgress.mastered_subtopics (record_score s r p)).
Proof.
  intros Hnd. rewrite record_score_mastered. repeat case_match; try exact Hnd.
  apply NoDup_app. split; [exact Hnd|]. split.
  - intros x Hx Hs. apply list_elem_of_singleton in Hs. subst x.
    match goal with H : bool_decide _ = false |- _ =>
      apply bool_decide_eq_false in H; exact (H Hx) end.
  - apply NoDup_singleton.
Qed.

Lemma record_score_adds s r p :
  (mastery_threshold <= (default 0%Q (UserProgress.subtopic_scores p !! s) + r) / 2)%Q →
  s ∈ UserProgress.mastered_subtopics (record_score s r p).
Proof.
  intros Hth. rewrite record_score_mastered.
  apply Qle_bool_iff in Hth. rewrite Hth.
  case_bool_decide as Hin; [exact Hin|].
  apply elem_of_app. right. apply list_elem_of_singleton. reflexivity.
Qed.

Lemma evaluate_answer_graded question user_answer language evaluation raw r p self :
  get_topic_progress (Question.topic question) language self = Some p →
  py_getitem evaluation "subtopic_score" = Ok raw →
  py_float_operand raw = Ok r →
  ∃ self',
    evaluate_answer question user_answer language evaluation self
    = Ok (evaluation, self') ∧
    update_progress (record_score (Question.subtopic question) r p) self = Ok self'.
Proof.
  intros Hp Hraw Hr. unfold evaluate_answer. rewrite Hp, Hraw. cbn [mbind result_bind].
  rewrite Hr. cbn [mbind result_bind].
  destruct (update_progress_ok (record_score (Question.subtopic question) r p) self)
    as (self' & Hup & _).
  exists self'. rewrite Hup. split; reflexivity.
Qed.

Lemma evaluate_answer_no_record question user_answer language evaluation self :
  get_topic_progress (Question.topic question) language self = None →
  evaluate_answer question user_answer language evaluation self
  = Ok (evaluation, self).
Proof. intros Hp. unfold evaluate_answer. rewrite Hp. reflexivity. Qed.

(** What a call of [evaluate_answer] does to the service. *)
Lemma evaluate_answer_cases question user_answer language evaluation self :
  (∃ e, evaluate_answer question user_answer language evaluation self = Raise e) ∨
  evaluate_answer question user_answer language evaluation self = Ok (evaluation, self) ∨
  (∃ p r self',
     get_topic_progress (Question.topic question) language self = Some p ∧
     evaluate_answer question user_answer language evaluation self
     = Ok (evaluation, self') ∧
     update_progress (record_score (Question.subtopic question) r p) self = Ok self').
Proof.
  destruct (get_topic_progress (Question.topic question) language self) as [p|] eqn:Hp.
  - destruct (py_getitem evaluation "subtopic_score") as [raw|e] eqn:Hraw.
    + destruct (py_float_operand raw) as [r|e] eqn:Hr.
      * right. right.
        destruct (evaluate_answer_graded question user_answer language evaluation
                    raw r p self Hp Hraw Hr) as (self' & He & Hup).
        exists p, r, self'. auto.
      * left. exists e. unfold evaluate_answer. rewrite Hp, Hraw.
        cbn [mbind result_bind]. rewrite Hr. reflexivity.
    + left. exists e. unfold evaluate_answer. rewrite Hp, Hraw. reflexivity.
  - right. left. apply evaluate_answer_no_record, Hp.
Qed.

Lemma sample_service_well_keyed : well_keyed (history sample_service).
Proof.
  intros k p H. cbn in H. apply lookup_singleton_Some in H as [<- <-]. reflexivity.
Qed.




Lemma mean_in_unit_interval (p r : Q) :
  (0 <= p ∧ p <= 1)%Q → (0 <= r ∧ r <= 1)%Q →
  (0 <= (p + r) / 2 ∧ (p + r) / 2 <= 1)%Q.
Proof.
  intros [Hp0 Hp1] [Hr0 Hr1]. split.
  - apply Qle_shift_div_l; [reflexivity|]. lra.
  - apply Qle_shift_div_r; [reflexivity|]. lra.
Qed.

Lemma record_score_in_unit_interval s r p :
  (∀ t x, UserProgress.subtopic_scores p !! t = Some x → (0 <= x ∧ x <= 1)%Q) →
  (0 <= r ∧ r <= 1)%Q →
  ∀ t x, UserProgress.subtopic_scores (record_score s r p) !! t = Some x →
         (0 <= x ∧ x <= 1)%Q.
Proof.
  intros Hp Hr t x. rewrite record_score_scores.
  destruct (decide (s = t)) as [<-|Hne].
  - rewrite lookup_insert_eq. intros [= <-]. apply mean_in_unit_interval; [|exact Hr].
    destruct (UserProgress.subtopic_scores p !! s) as [y|] eqn:Hy; cbn [default].
    + exact (Hp s y Hy).
    + split; [apply Qle_refl | discriminate].
  - rewrite lookup_insert_ne by exact Hne. apply Hp.
Qed.

(** C2 (as the code has it). [evaluate_answer] does not clamp: it keeps the
    stored scores in [[0, 1]] when the oracle's [subtopic_score] is itself a
    number in [[0, 1]]. Then the call returns without an error and every
    stored subtopic score lies in [[0, 1]] afterwards. *)
Theorem evaluate_answer_keeps_unit_interval (question : Question.t)
    (user_answer language : string) (evaluation raw : pyval) (r : Q)
    (self : InterviewService) :
  scores_in_unit_interval (history self) →
  py_getitem evaluation "subtopic_score" = Ok raw →
  py_float_operand raw = Ok r →
  (0 <= r ∧ r <= 1)%Q →
  ∃ self',
    evaluate_answer question user_answer language evaluation self
    = Ok (evaluation, self') ∧
    scores_in_unit_interval (history self').
Proof.
  intros Hinv Hraw Hr Hrange.
  destruct (get_topic_progress (Question.topic question) language self) as [p|] eqn:Hp.
  - destruct (evaluate_answer_graded question user_answer language evaluation
                raw r p self Hp Hraw Hr) as (self' & He & Hup).
    destruct (update_progress_ok (record_score (Question.subtopic question) r p) self)
      as (self'' & Hup' & _ & Hprog & _).
    rewrite Hup in Hup'. injection Hup' as <-.
    exists self'. split; [exact He|].
    intros k q s x Hk. rewrite Hprog in Hk.
    apply lookup_insert_Some in Hk as [[_ <-]|[_ Hk]].
    + apply record_score_in_unit_interval; [|exact Hrange].
      intros t y. exact (Hinv _ p t y Hp).
    + apply (Hinv k q). exact Hk.
  - exists self. split; [apply evaluate_answer_no_record, Hp|exact Hinv].
Qed.

Lemma sample_service_scores_in_unit_interval :
  scores_in_unit_interval (history sample_service).
Proof.
  intros k p s x Hk Hs. cbn in Hk. apply lookup_singleton_Some in Hk as [_ <-].
  cbn in Hs. apply lookup_insert_Some in Hs as [[_ <-]|[_ Hs]].
  - split; discriminate.
  - apply lookup_singleton_Some in Hs as [_ <-]. split; discriminate.
Qed.

Lemma evaluate_answer_keeps_unit_interval_witness :
  ∃ self',
    evaluate_answer sample_question EmptyString "EN"
      (evaluation_with (PFloat (95 # 100))) sample_service
    = Ok (evaluation_with (PFloat (95 # 100)), self') ∧
    scores_in_unit_interval (history self').
Proof.
  apply (evaluate_answer_keeps_unit_interval sample_question EmptyString "EN"
           (evaluation_with (PFloat (95 # 100))) (PFloat (95 # 100)) (95 # 100)%Q
           sample_service sample_service_scores_in_unit_interval eq_refl eq_refl).
  split; discriminate.
Defined.

(** C2, as stated, fails: an out-of-range [subtopic_score] is averaged in as
    it is. From a store whose scores all lie in [[0, 1]], the oracle score
    [3] for a subtopic without a score stores [3/2] for it; and an
    evaluation without a [subtopic_score] makes the call raise [KeyError]. *)
Lemma evaluate_answer_does_not_clamp :
  scores_in_unit_interval (history sample_service) ∧
  (∃ self' p',
     evaluate_answer sample_question EmptyString "EN"
       (evaluation_with (PInt 3)) sample_service
     = Ok (evaluation_with (PInt 3), self') ∧
     get_topic_progress "Python" "EN" self' = Some p' ∧
     UserProgress.subtopic_scores p' !! "Decorators" = Some (3 # 2)%Q ∧
     ¬ (3 # 2 <= 1)%Q) ∧
  evaluate_answer sample_question EmptyString "EN"
    (PDict [("is_correct", PBool true)]) sample_service
  = Raise KeyError.
Proof.
  split; [exact sample_service_scores_in_unit_interval|]. split; [|reflexivity].
  destruct (evaluate_answer_graded sample_question EmptyString "EN"
              (evaluation_with (PInt 3)) (PInt 3) 3%Q sample_progress sample_service
              eq_refl eq_refl eq_refl) as (self' & He & Hup).
  destruct (update_progress_ok (record_score "Decorators" 3 sample_progress)
              sample_service) as (self'' & Hup' & _ & Hprog & _).
  change (Question.subtopic sample_question) with "Decorators" in Hup.
  rewrite Hup in Hup'. injection Hup' as <-.
  exists self', (record_score "Decorators" 3 sample_progress).
  split; [exact He|]. split; [|split].
  - unfold get_topic_progress. rewrite Hprog.
    rewrite record_score_topic, record_score_language. apply lookup_insert_eq.
  - rewrite record_score_scores. rewrite lookup_insert_eq. reflexivity.
  - intros H. unfold Qle in H. cbn in H. lia.
Qed.

(** ** Mastered subtopics *)

Lemma mastery_kept_refl p : mastery_kept p p.
Proof. split; auto. Qed.

Lemma mastery_kept_trans p1 p2 p3 :
  mastery_kept p1 p2 → mastery_kept p2 p3 → mastery_kept p1 p3.
Proof. intros [H1 H2] [H3 H4]. split; auto. Qed.

Lemma mastery_kept_record_score s r p : mastery_kept p (record_score s r p).
Proof.
  split; [intros x; apply record_score_keeps | apply record_score_NoDup].
Qed.

Lemma evaluate_answer_step question user_answer language evaluation self res self' :
  well_keyed (history self) →
  evaluate_answer question user_answer language evaluation self = Ok (res, self') →
  well_keyed (history self') ∧
  ∀ k p, progress (history self) !! k = Some p →
         ∃ p', progress (history self') !! k = Some p' ∧ mastery_kept p p'.
Proof.
  intros Hwk He.
  destruct (evaluate_answer_cases question user_answer language evaluation self)
    as [[e Hr]|[Hsame|(p & r & self1 & Hp & He1 & Hup)]].
  - rewrite Hr in He. discriminate He.
  - rewrite Hsame in He. injection He as _ <-. split; [exact Hwk|].
    intros k p Hk. exists p. split; [exact Hk|apply mastery_kept_refl].
  - rewrite He1 in He. injection He as _ <-.
    split; [exact (well_keyed_update_progress _ _ _ Hwk Hup)|].
    destruct (update_progress_ok (record_score (Question.subtopic question) r p) self)
      as (self2 & Hup2 & _ & Hprog & _).
    rewrite Hup in Hup2. injection Hup2 as <-.
    rewrite record_score_topic, record_score_language in Hprog.
    rewrite <- (Hwk _ _ Hp) in Hprog.
    intros k q Hk. rewrite Hprog.
    destruct (decide (progress_key (Question.topic question) language = k)) as [<-|Hne].
    + rewrite lookup_insert_eq. eexists. split; [reflexivity|].
      unfold get_topic_progress in Hp. rewrite Hp in Hk. injection Hk as <-.
      apply mastery_kept_record_score.
    + rewrite lookup_insert_ne by exact Hne.
      exists q. split; [exact Hk|apply mastery_kept_refl].
Qed.

Lemma evaluate_answers_monotone calls : ∀ self,
  well_keyed (history self) →
  well_keyed (history (evaluate_answers calls self)) ∧
  ∀ k p, progress (history self) !! k = Some p →
         ∃ p', progress (history (evaluate_answers calls self)) !! k = Some p' ∧
               mastery_kept p p'.
Proof.
  induction calls as [|[[[question user_answer] language] evaluation] calls IH];
    intros self Hwk.
  - split; [exact Hwk|]. intros k p Hk. exists p.
    split; [exact Hk|apply mastery_kept_refl].
  - cbn [evaluate_answers].
    destruct (evaluate_answer question user_answer language evaluation self)
      as [[res self1]|e] eqn:He.
    + destruct (evaluate_answer_step _ _ _ _ _ _ _ Hwk He) as [Hwk1 Hstep].
      destruct (IH self1 Hwk1) as [Hwk' Hrest]. split; [exact Hwk'|].
      intros k p Hk. destruct (Hstep k p Hk) as (p1 & Hk1 & Hkept1).
      destruct (Hrest k p1 Hk1) as (p' & Hk' & Hkept').
      exists p'. split; [exact Hk'|exact (mastery_kept_trans _ _ _ Hkept1 Hkept')].
    + apply IH, Hwk.
Qed.

(** C4. Under [evaluate_answer], membership in [mastered_subtopics] only
    grows and no duplicate appears. Across any run of graded answers every
    stored record keeps each of its mastered subtopics, and stays free of
    duplicates if it was; and a graded answer whose averaged score reaches
    [0.85] puts the subtopic among the mastered ones, where it still is
    after any later answers, whatever their scores. *)
Theorem mastered_subtopics_monotone
    (later : list (Question.t * string * string * pyval)) (self : InterviewService) :
  well_keyed (history self) →
  (∀ k p, progress (history self) !! k = Some p →
     ∃ p', progress (history (evaluate_answers later self)) !! k = Some p' ∧
       (∀ s, s ∈ UserProgress.mastered_subtopics p →
             s ∈ UserProgress.mastered_subtopics p') ∧
       (NoDup (UserProgress.mastered_subtopics p) →
        NoDup (UserProgress.mastered_subtopics p'))) ∧
  (∀ question user_answer language evaluation raw r p,
     get_topic_progress (Question.topic question) language self = Some p →
     py_getitem evaluation "subtopic_score" = Ok raw →
     py_float_operand raw = Ok r →
     (mastery_threshold
      <= (default 0%Q (UserProgress.subtopic_scores p !! Question.subtopic question)
          + r) / 2)%Q →
     ∃ p',
       get_topic_progress (Question.topic question) language
         (evaluate_answers ((question, user_answer, language, evaluation) :: later) self)
       = Some p' ∧
       Question.subtopic question ∈ UserProgress.mastered_subtopics p' ∧
       (∀ s, s ∈ UserProgress.mastered_subtopics p →
             s ∈ UserProgress.mastered_subtopics p') ∧
       (NoDup (UserProgress.mastered_subtopics p) →
        NoDup (UserProgress.mastered_subtopics p'))).
Proof.
  intros Hwk. split.
  - intros k p Hk.
    destruct (proj2 (evaluate_answers_monotone later self Hwk) k p Hk)
      as (p' & Hk' & Hsub & Hnd).
    exists p'. auto.
  - intros question user_answer language evaluation raw r p Hp Hraw Hr Hth.
    destruct (evaluate_answer_graded question user_answer language evaluation
                raw r p self Hp Hraw Hr) as (self1 & He & Hup).
    cbn [evaluate_answers]. rewrite He.
    destruct (update_progress_ok (record_score (Question.subtopic question) r p) self)
      as (self2 & Hup2 & _ & Hprog & _).
    rewrite Hup in Hup2. injection Hup2 as <-.
    rewrite record_score_topic, record_score_language in Hprog.
    rewrite <- (Hwk _ _ Hp) in Hprog.
    assert (Hk1 : progress (history self1) !! progress_key (Question.topic question) language
                  = Some (record_score (Question.subtopic question) r p)).
    { rewrite Hprog. apply lookup_insert_eq. }
    pose proof (well_keyed_update_progress _ _ _ Hwk Hup) as Hwk1.
    destruct (proj2 (evaluate_answers_monotone later self1 Hwk1) _ _ Hk1)
      as (p' & Hk' & Hsub & Hnd).
    exists p'. split; [exact Hk'|]. split; [|split].
    + apply Hsub, record_score_adds, Hth.
    + intros s Hs. apply Hsub, record_score_keeps, Hs.
    + intros Hnd0. apply Hnd, record_score_NoDup, Hnd0.
Qed.

Lemma mastered_subtopics_monotone_witness :
  ∃ p',
    get_topic_progress "Python" "EN"
      (evaluate_answers
         [(generators_question, EmptyString, "EN", evaluation_with (PFloat (95 # 100)));
          (generators_question, EmptyString, "EN", evaluation_with (PFloat 0))]
         sample_service)
    = Some p' ∧
    "Generators" ∈ UserProgress.mastered_subtopics p'.
Proof.
  destruct (proj2 (mastered_subtopics_monotone
                     [(generators_question, EmptyString, "EN",
                       evaluation_with (PFloat 0))]
                     sample_service sample_service_well_keyed)
              generators_question EmptyString "EN" (evaluation_with (PFloat (95 # 100)))
              (PFloat (95 # 100)) (95 # 100)%Q sample_progress
              eq_refl eq_refl eq_refl ltac:(vm_compute; discriminate))
    as (p' & H1 & H2 & _).
  exists p'. split; [exact H1|exact H2].
Defined.

(** ** Analysing a finished session *)

(** C3. For an existing progress record, whatever the oracle's analysis is,
    a [UserProgress] that [analyze_performance] returns has the record's
    [mastered_subtopics] and [subtopic_scores], so a subtopic mastered
    before is mastered after; it is built for the same topic and language,
    so that [update_progress] stores it in the record's place. An analysis
    with the three expected fields, and none of the keywords the call
    passes by name, does return such a record. *)
Theorem analyze_performance_preserves_mastery
    (validate_str : pyval → option string) (validate_float : pyval → option Q)
    (validate_str_list : pyval → option (list string))
    (topic : string) (session_data : InterviewSession.t) (language : string)
    (now : datetime) (analysis : pyval) (self : InterviewService)
    (existing : UserProgress.t) :
  get_topic_progress topic language self = Some existing →
  (∀ p, analyze_performance validate_str validate_float validate_str_list
          topic session_data language now analysis self = Ok p →
        UserProgress.mastered_subtopics p = UserProgress.mastered_subtopics existing ∧
        UserProgress.subtopic_scores p = UserProgress.subtopic_scores existing ∧
        (∀ s, s ∈ UserProgress.mastered_subtopics existing →
              s ∈ UserProgress.mastered_subtopics p) ∧
        ∃ self', update_progress p self = Ok self' ∧
                 get_topic_progress topic language self' = Some p) ∧
  (∀ kwargs skill_level confidence_score recommended_topics,
     analysis = PDict kwargs →
     existsb (fun name => bool_decide (is_Some (dict_get kwargs name)))
             explicit_keywords = false →
     required validate_str kwargs "skill_level" = Ok skill_level →
     required validate_float kwargs "confidence_score" = Ok confidence_score →
     required validate_str_list kwargs "recommended_topics" = Ok recommended_topics →
     analyze_performance validate_str validate_float validate_str_list
       topic session_data language now analysis self
     = Ok (UserProgress.mk topic skill_level confidence_score (Some now) language
             recommended_topics (UserProgress.mastered_subtopics existing)
             (UserProgress.subtopic_scores existing))).
Proof.
  intros Hex. split.
  - intros p Hp. unfold analyze_performance in Hp. rewrite Hex in Hp.
    destruct (py_kwargs analysis) as [kwargs|e]; cbn [mbind result_bind] in Hp;
      [|discriminate Hp].
    destruct (existsb _ explicit_keywords); [discriminate Hp|].
    destruct (required validate_str kwargs "skill_level") as [sl|e];
      cbn [mbind result_bind] in Hp; [|discriminate Hp].
    destruct (required validate_float kwargs "confidence_score") as [cs|e];
      cbn [mbind result_bind] in Hp; [|discriminate Hp].
    destruct (required validate_str_list kwargs "recommended_topics") as [rt|e];
      cbn [mbind result_bind] in Hp; [|discriminate Hp].
    injection Hp as <-.
    split; [reflexivity|]. split; [reflexivity|]. split; [auto|].
    match goal with |- context [update_progress ?q self] =>
      destruct (update_progress_ok q self) as (self' & Hup & _ & Hprog & _) end.
    exists self'. split; [exact Hup|].
    unfold get_topic_progress. rewrite Hprog. apply lookup_insert_eq.
  - intros kwargs sl cs rt -> Hkw Hsl Hcs Hrt.
    unfold analyze_performance. rewrite Hex. cbn [py_kwargs mbind result_bind].
    rewrite Hkw, Hsl. cbn [mbind result_bind].
    rewrite Hcs. cbn [mbind result_bind]. rewrite Hrt. reflexivity.
Qed.

Lemma analyze_performance_preserves_mastery_witness :
  analyze_performance json_str json_float json_str_list
    "Python" sample_session "EN" sample_time sample_analysis sample_service
  = Ok (UserProgress.mk "Python" "Beginner" (1 # 10) (Some sample_time) "EN"
          ["Closures"] (UserProgress.mastered_subtopics sample_progress)
          (UserProgress.subtopic_scores sample_progress)).
Proof.
  exact (proj2 (analyze_performance_preserves_mastery json_str json_float json_str_list
                  "Python" sample_session "EN" sample_time sample_analysis
                  sample_service sample_progress eq_refl)
           _ "Beginner" (1 # 10)%Q ["Closures"] eq_refl eq_refl eq_refl eq_refl eq_refl).
Defined.

(** An analysis that names [mastered_subtopics] itself is refused: the
    keyword is given twice. *)
Example analyze_performance_rejects_override :
  analyze_performance json_str json_float json_str_list
    "Python" sample_session "EN" sample_time
    (PDict [("skill_level", PStr "Beginner"); ("confidence_score", PFloat (1 # 10));
            ("recommended_topics", PList []); ("mastered_subtopics", PList [])])
    sample_service
  = Raise TypeError.
Proof. reflexivity. Qed.

(** ** The prompt of a new question *)

Lemma append_cons (a : ascii) (s t : string) : String a s +:+ t = String a (s +:+ t).
Proof. reflexivity. Qed.

Lemma append_assoc (s t u : string) : (s +:+ t) +:+ u = s +:+ t +:+ u.
Proof.
  induction s as [|a s IH]; [reflexivity|].
  rewrite !append_cons, IH. reflexivity.
Qed.

Lemma append_nil_r (s : string) : s +:+ EmptyString = s.
Proof.
  induction s as [|a s IH]; [reflexivity|]. rewrite append_cons, IH. reflexivity.
Qed.

Lemma occurs_in_refl (s : string) : occurs_in s s.
Proof. exists EmptyString, EmptyString. rewrite append_nil_r. reflexivity. Qed.

Lemma occurs_in_app_l (s a b : string) : occurs_in s a → occurs_in s (a +:+ b).
Proof.
  intros (x & y & ->). exists x, (y +:+ b). rewrite !append_assoc. reflexivity.
Qed.

Lemma occurs_in_app_r (s a b : string) : occurs_in s b → occurs_in s (a +:+ b).
Proof.
  intros (x & y & ->). exists (a +:+ x), y. rewrite !append_assoc. reflexivity.
Qed.

(** Finds an occurrence known for one operand of a right-nested [+:+]. *)
Ltac find_occurrence :=
  first [ eassumption
        | apply occurs_in_refl
        | apply occurs_in_app_l; first [eassumption | apply occurs_in_refl]
        | apply occurs_in_app_r; find_occurrence ].



Lemma previous_questions_loop_occurs (s : string) (qs : list Question.t) :
  ∀ i text,
  occurs_in s text ∨
  (∃ q, q ∈ qs ∧ (s = Question.question_text q ∨ s = Question.topic q ∨
                  s = Question.subtopic q)) →
  occurs_in s (previous_questions_loop i qs text).
Proof.
  induction qs as [|q qs IH]; intros i text H; cbn [previous_questions_loop].
  - destruct H as [H|(q & Hq & _)]; [exact H|]. apply elem_of_nil in Hq. destruct Hq.
  - apply IH. destruct H as [H|(q' & Hq & Hs)].
    + left. find_occurrence.
    + apply elem_of_cons in Hq as [->|Hq].
      * left. destruct Hs as [-> | [-> | ->]]; find_occurrence.
      * right. exists q'. auto.
Qed.

Lemma previous_questions_text_occurs (qs : list Question.t) (q : Question.t) (s : string) :
  q ∈ qs →
  s = Question.question_text q ∨ s = Question.topic q ∨ s = Question.subtopic q →
  occurs_in s (previous_questions_text (Some qs)).
Proof.
  intros Hq Hs. unfold previous_questions_text.
  destruct qs as [|q0 qs]; [apply elem_of_nil in Hq; destruct Hq|].
  apply previous_questions_loop_occurs. right. exists q. auto.
Qed.


(** ** Worked cases *)

(** What is saved is what the next start loads. *)
Lemma load_after_save (self self' : InterviewService) :
  history_timestamps_valid (history self) →
  _save_history self = Ok self' →
  _load_history (history_file self') = Ok (history_dict (history self)).
Proof.
  intros Hv Hsave.
  destruct (history_round_trip _ Hv) as (doc & Hdump & Hload).
  unfold _save_history in Hsave. rewrite Hdump in Hsave. injection Hsave as <-.
  cbn [history_file]. unfold _load_history. cbn [open_and_load mbind result_bind].
  rewrite Hload. reflexivity.
Qed.

(** A file the process may not read stops the load. *)
Example load_history_permission_denied :
  _load_history (Unreadable PermissionError) = Raise PermissionError.
Proof. reflexivity. Qed.

(** A stored timestamp that is not ISO-8601 text stops the load. *)
Example load_history_bad_timestamp :
  _load_history
    (Document (PDict [("sessions", PList [PDict [("timestamp", PStr "yesterday")]]);
                      ("progress", PDict [])]))
  = Raise ValueError.
Proof. reflexivity. Qed.

(** The scenario of three graded answers [0.8], [0.9], [0.95] on a subtopic
    without a score: the stored scores are [0.4], [0.65], [0.8] and the
    subtopic is not mastered; a fourth answer graded [0.95] gives [0.875]
    and masters it. *)
Example decorators_scenario :
  let grade q := (sample_question, EmptyString, "EN", evaluation_with (PFloat q)) in
  let score calls :=
    p ← get_topic_progress "Python" "EN" (evaluate_answers calls sample_service);
    v ← UserProgress.subtopic_scores p !! "Decorators";
    Some (Qred v, bool_decide ("Decorators" ∈ UserProgress.mastered_subtopics p)) in
  score [grade (8 # 10)%Q] = Some ((2 # 5)%Q, false) ∧
  score [grade (8 # 10)%Q; grade (9 # 10)%Q] = Some ((13 # 20)%Q, false) ∧
  score [grade (8 # 10)%Q; grade (9 # 10)%Q; grade (95 # 100)%Q]
  = Some ((4 # 5)%Q, false) ∧
  score [grade (8 # 10)%Q; grade (9 # 10)%Q; grade (95 # 100)%Q; grade (95 # 100)%Q]
  = Some ((7 # 8)%Q, true).
Proof. vm_compute. repeat split. Qed.

(** * More of the code *)

(** ** What reaches the file, and what comes back *)








Lemma dict_get_set_eq (kvs : list (string * pyval)) (k : string) (v : pyval) :
  dict_get (dict_set kvs k v) k = Some v.
Proof.
  induction kvs as [|[k' v'] kvs IH]; cbn [dict_set dict_get].
  - rewrite String.eqb_refl. reflexivity.
  - destruct (String.eqb k' k) eqn:E; cbn [dict_get]; rewrite E; [reflexivity|exact IH].
Qed.

Lemma dict_get_set_ne (kvs : list (string * pyval)) (k k' : string) (v : pyval) :
  k ≠ k' → dict_get (dict_set kvs k v) k' = dict_get kvs k'.
Proof.
  intros Hne. induction kvs as [|[k0 v0] kvs IH]; cbn [dict_set dict_get].
  - destruct (String.eqb k k') eqn:E; [|reflexivity].
    apply String.eqb_eq in E. contradiction.
  - destruct (String.eqb k0 k) eqn:E; cbn [dict_get].
    + apply String.eqb_eq in E. subst k0.
      destruct (String.eqb k k') eqn:E'; [|reflexivity].
      apply String.eqb_eq in E'. contradiction.
    + rewrite IH. reflexivity.
Qed.

Lemma datetime_fromisoformat_is_datetime (v d : pyval) :
  datetime_fromisoformat v = Ok d → is_datetime d = true.
Proof.
  destruct v; cbn; try discriminate.
  destruct (fromisoformat s); [|discriminate]. intros [= <-]. reflexivity.
Qed.

Lemma deserialize_session_timestamp (x x' v : pyval) :
  deserialize_session x = Ok x' → py_getitem x' "timestamp" = Ok v →
  is_datetime v = true.
Proof.
  unfold deserialize_session. intros H Hv.
  destruct (py_contains "timestamp" x) as [[|]|e] eqn:Hc; cbn [mbind result_bind] in H;
    [| |discriminate H].
  - destruct (py_getitem x "timestamp") as [ts|e] eqn:Hts; [|discriminate H].
    cbn [mbind result_bind] in H.
    destruct (datetime_fromisoformat ts) as [d|e] eqn:Hd; [|discriminate H].
    cbn [mbind result_bind] in H.
    destruct x; try discriminate H. cbn [py_setitem] in H. injection H as <-.
    cbn [py_getitem] in Hv. rewrite dict_get_set_eq in Hv. injection Hv as <-.
    exact (datetime_fromisoformat_is_datetime _ _ Hd).
  - injection H as <-. destruct x; try discriminate Hv.
    cbn [py_contains py_getitem] in Hc, Hv.
    destruct (dict_get kvs "timestamp"); [discriminate Hc|discriminate Hv].
Qed.

Lemma deserialize_progress_last_session (x x' v : pyval) :
  deserialize_progress x = Ok x' → py_getitem x' "last_session" = Ok v →
  is_datetime v = true ∨ py_truthy v = false.
Proof.
  unfold deserialize_progress. intros H Hv.
  destruct (py_contains "last_session" x) as [[|]|e] eqn:Hc;
    cbn [mbind result_bind] in H; [| |discriminate H].
  - destruct (py_getitem x "last_session") as [ls|e] eqn:Hls; [|discriminate H].
    cbn [mbind result_bind] in H.
    destruct (py_truthy ls) eqn:Ht.
    + destruct (datetime_fromisoformat ls) as [d|e] eqn:Hd; [|discriminate H].
      cbn [mbind result_bind] in H.
      destruct x; try discriminate H. cbn [py_setitem] in H. injection H as <-.
      cbn [py_getitem] in Hv. rewrite dict_get_set_eq in Hv. injection Hv as <-.
      left. exact (datetime_fromisoformat_is_datetime _ _ Hd).
    + injection H as <-. rewrite Hls in Hv. injection Hv as <-. right. exact Ht.
  - injection H as <-. destruct x; try discriminate Hv.
    cbn [py_contains py_getitem] in Hc, Hv.
    destruct (dict_get kvs "last_session"); [discriminate Hc|discriminate Hv].
Qed.

Lemma for_items_elem (body : pyval → result pyval) (l l' : list pyval) (x' : pyval) :
  for_items body l = Ok l' → x' ∈ l' → ∃ x, x ∈ l ∧ body x = Ok x'.
Proof.
  revert l'. induction l as [|x l IH]; intros l' H Hx; cbn [for_items] in H.
  - injection H as <-. apply elem_of_nil in Hx. destruct Hx.
  - destruct (body x) as [y|e] eqn:Hy; [|discriminate H]. cbn [mbind result_bind] in H.
    destruct (for_items body l) as [r|e] eqn:Hr; [|discriminate H].
    injection H as <-. apply elem_of_cons in Hx as [->|Hx].
    + exists x. split; [apply elem_of_cons; left; reflexivity|exact Hy].
    + destruct (IH r eq_refl Hx) as (x0 & Hin & Hb).
      exists x0. split; [apply elem_of_cons; right; exact Hin|exact Hb].
Qed.

Lemma for_values_elem (body : pyval → result pyval) (kvs kvs' : list (string * pyval))
    (k : string) (x' : pyval) :
  for_values body kvs = Ok kvs' → (k, x') ∈ kvs' →
  ∃ x, (k, x) ∈ kvs ∧ body x = Ok x'.
Proof.
  revert kvs'. induction kvs as [|[k0 x] kvs IH]; intros kvs' H Hx; cbn [for_values] in H.
  - injection H as <-. apply elem_of_nil in Hx. destruct Hx.
  - destruct (body x) as [y|e] eqn:Hy; [|discriminate H]. cbn [mbind result_bind] in H.
    destruct (for_values body kvs) as [r|e] eqn:Hr; [|discriminate H].
    injection H as <-. apply elem_of_cons in Hx as [Heq|Hx].
    + injection Heq as -> ->. exists x. split; [apply elem_of_cons; left; reflexivity|exact Hy].
    + destruct (IH r eq_refl Hx) as (x0 & Hin & Hb).
      exists x0. split; [apply elem_of_cons; right; exact Hin|exact Hb].
Qed.

(** The first loop of [_deserialize_datetime], with its guard. *)
Lemma sessions_stage_timestamps (data data1 : pyval) (has_sessions : bool) :
  py_contains "sessions" data = Ok has_sessions →
  (if has_sessions then
     sessions ← py_getitem data "sessions";
     items ← py_iter sessions;
     items' ← for_items deserialize_session items;
     match sessions with
     | PList _ => py_setitem data "sessions" (PList items')
     | _ => Ok data
     end
   else Ok data) = Ok data1 →
  ∀ sessions session v,
    py_getitem data1 "sessions" = Ok (PList sessions) → session ∈ sessions →
    py_getitem session "timestamp" = Ok v → is_datetime v = true.
Proof.
  intros Hc H sessions session v Hs Hin Hv.
  destruct has_sessions.
  - destruct (py_getitem data "sessions") as [ss|e] eqn:Hss; [|discriminate H].
    cbn [mbind result_bind] in H.
    destruct (py_iter ss) as [items|e] eqn:Hit; [|discriminate H].
    cbn [mbind result_bind] in H.
    destruct (for_items deserialize_session items) as [items'|e] eqn:Hfi; [|discriminate H].
    cbn [mbind result_bind] in H.
    destruct ss; try (injection H as <-; rewrite Hss in Hs; discriminate Hs).
    destruct data; try discriminate H. cbn [py_setitem] in H. injection H as <-.
    cbn [py_getitem] in Hs. rewrite dict_get_set_eq in Hs. injection Hs as <-.
    destruct (for_items_elem _ _ _ _ Hfi Hin) as (x & _ & Hx).
    exact (deserialize_session_timestamp _ _ _ Hx Hv).
  - injection H as <-. destruct data; try discriminate Hs.
    cbn [py_contains py_getitem] in Hc, Hs.
    destruct (dict_get kvs "sessions"); [discriminate Hc|discriminate Hs].
Qed.

(** X2. After [_deserialize_datetime] no text is left where a timestamp
    belongs: in the loaded history every session's [timestamp] is a
    [datetime], and every progress record's [last_session] is a [datetime]
    or a value that counts as false, like [None]. *)
Theorem loaded_timestamps_are_datetimes (data data' : pyval) :
  _deserialize_datetime data = Ok data' →
  (∀ sessions session v,
     py_getitem data' "sessions" = Ok (PList sessions) → session ∈ sessions →
     py_getitem session "timestamp" = Ok v → is_datetime v = true) ∧
  (∀ records k record v,
     py_getitem data' "progress" = Ok (PDict records) → (k, record) ∈ records →
     py_getitem record "last_session" = Ok v →
     is_datetime v = true ∨ py_truthy v = false).
Proof.
  unfold _deserialize_datetime. intros H.
  destruct (py_contains "sessions" data) as [has_sessions|e] eqn:Hhas; [|discriminate H].
  cbn [mbind result_bind] in H.
  match type of H with (?stage ≫= _) = _ =>
    destruct stage as [data1|e] eqn:Hstage; [|discriminate H] end.
  pose proof (sessions_stage_timestamps data data1 has_sessions Hhas Hstage) as Hsess.
  cbn [mbind result_bind] in H.
  destruct (py_contains "progress" data1) as [[|]|e] eqn:Hc; cbn [mbind result_bind] in H;
    [| |discriminate H].
  - destruct (py_getitem data1 "progress") as [pr|e] eqn:Hpr; [|discriminate H].
    cbn [mbind result_bind] in H. destruct pr; try discriminate H.
    destruct (for_values deserialize_progress kvs) as [kvs'|e] eqn:Hfv; [|discriminate H].
    cbn [mbind result_bind] in H.
    destruct data1 as [ | | | | | | |top]; try discriminate H.
    cbn [py_setitem] in H. injection H as <-. split.
    + intros sessions session v Hs. cbn [py_getitem] in Hs.
      rewrite dict_get_set_ne in Hs by discriminate. apply Hsess. exact Hs.
    + intros records k record v Hr Hin Hv. cbn [py_getitem] in Hr.
      rewrite dict_get_set_eq in Hr. injection Hr as <-.
      destruct (for_values_elem _ _ _ _ _ Hfv Hin) as (x & _ & Hx).
      exact (deserialize_progress_last_session _ _ _ Hx Hv).
  - injection H as <-. split; [exact Hsess|].
    intros records k record v Hr. destruct data1; try discriminate Hr.
    cbn [py_contains py_getitem] in Hc, Hr.
    destruct (dict_get kvs "progress"); [discriminate Hc|discriminate Hr].
Qed.

Lemma loaded_timestamps_are_datetimes_witness :
  _deserialize_datetime sample_document = Ok sample_loaded ∧
  is_datetime (PDatetime sample_time) = true.
Proof.
  split; [reflexivity|].
  apply (proj1 (loaded_timestamps_are_datetimes sample_document sample_loaded eq_refl)
           [PDict [("topic", PStr "Python"); ("timestamp", PDatetime sample_time)]]
           (PDict [("topic", PStr "Python"); ("timestamp", PDatetime sample_time)])).
  - reflexivity.
  - apply list_elem_of_singleton. reflexivity.
  - reflexivity.
Defined.

Lemma history_timestamps_valid_update (p : UserProgress.t) (h : History) (k : string) :
  history_timestamps_valid h → valid_last_session p = true →
  history_timestamps_valid (mk_History (sessions h) (<[k := p]> (progress h))).
Proof.
  intros [Hs Hp] Hv. split; [exact Hs|]. cbn [progress].
  apply map_Forall_insert_2; [exact Hv|exact Hp].
Qed.

Lemma history_timestamps_valid_append (s : InterviewSession.t) (h : History) :
  history_timestamps_valid h → valid_datetime (InterviewSession.timestamp s) = true →
  history_timestamps_valid (mk_History (sessions h ++ [s]) (progress h)).
Proof.
  intros [Hs Hp] Hv. split; [|exact Hp]. cbn [sessions].
  apply Forall_app. split; [exact Hs|]. constructor; [exact Hv|constructor].
Qed.

(** X3. What [update_progress] and [save_session] save is what the next
    [_load_history] returns: the history as it is in memory after the call,
    with every timestamp a [datetime] again. *)
Theorem saved_history_loads_back (p : UserProgress.t) (session : InterviewSession.t)
    (self : InterviewService) :
  history_timestamps_valid (history self) →
  valid_last_session p = true →
  valid_datetime (InterviewSession.timestamp session) = true →
  (∃ self', update_progress p self = Ok self' ∧
            _load_history (history_file self') = Ok (history_dict (history self'))) ∧
  (∃ self', save_session session self = Ok self' ∧
            _load_history (history_file self') = Ok (history_dict (history self'))).
Proof.
  intros Hv Hp Hs. split.
  - destruct (update_progress_ok p self) as (self' & Hup & _ & _ & _).
    exists self'. split; [exact Hup|].
    unfold update_progress in Hup.
    match type of Hup with _save_history ?s = _ =>
      assert (Hh : history self' = history s) end.
    { unfold _save_history in Hup.
      destruct (json_dump _) as [doc|e]; [|discriminate Hup].
      injection Hup as <-. reflexivity. }
    rewrite Hh. eapply load_after_save; [|exact Hup].
    exact (history_timestamps_valid_update _ _ _ Hv Hp).
  - destruct (save_session_ok session self) as (self' & Hsv & _ & _ & _).
    exists self'. split; [exact Hsv|].
    unfold save_session in Hsv.
    match type of Hsv with _save_history ?s = _ =>
      assert (Hh : history self' = history s) end.
    { unfold _save_history in Hsv.
      destruct (json_dump _) as [doc|e]; [|discriminate Hsv].
      injection Hsv as <-. reflexivity. }
    rewrite Hh. eapply load_after_save; [|exact Hsv].
    exact (history_timestamps_valid_append _ _ Hv Hs).
Qed.

Lemma saved_history_loads_back_witness :
  ∃ self', save_session sample_session sample_service = Ok self' ∧
           _load_history (history_file self') = Ok (history_dict (history self')).
Proof.
  exact (proj2 (saved_history_loads_back sample_progress sample_session sample_service
                  sample_history_valid eq_refl eq_refl)).
Defined.

Lemma _save_history_same_history (s1 s2 : InterviewService) :
  history s1 = history s2 → _save_history s1 = _save_history s2.
Proof. unfold _save_history. intros ->. reflexivity. Qed.

(** X4. [save_session] and [update_progress] do not interfere: in either
    order they leave the same service, history and file. Saving a session
    changes no progress record and storing a record changes no session. *)
Theorem save_session_update_progress_commute (session : InterviewSession.t)
    (p : UserProgress.t) (self : InterviewService) :
  (self1 ← save_session session self; update_progress p self1)
  = (self1 ← update_progress p self; save_session session self1) ∧
  ∃ self', (self1 ← save_session session self; update_progress p self1) = Ok self' ∧
    sessions (history self') = sessions (history self) ++ [session] ∧
    progress (history self') = <[UserProgress_key p := p]> (progress (history self)).
Proof.
  destruct (save_session_ok session self) as (a & Ha & Hsa & Hpa & _).
  destruct (update_progress_ok p self) as (b & Hb & Hsb & Hpb & _).
  destruct (update_progress_ok p a) as (a' & Ha' & Hsa' & Hpa' & _).
  destruct (save_session_ok session b) as (b' & Hb' & Hsb' & Hpb' & _).
  rewrite Ha, Hb. cbn [mbind result_bind]. split.
  - unfold update_progress, save_session. apply _save_history_same_history.
    cbn [history]. rewrite Hsa, Hpa, Hsb, Hpb. reflexivity.
  - exists a'. split; [exact Ha'|]. rewrite Hsa', Hpa', Hsa, Hpa. split; reflexivity.
Qed.

(** ** Runs of [update_progress] *)

Lemma update_progresses_ok (records : list UserProgress.t) : ∀ self,
  ∃ self', update_progresses records self = Ok self' ∧
    sessions (history self') = sessions (history self).
Proof.
  induction records as [|p records IH]; intros self.
  - exists self. split; reflexivity.
  - destruct (update_progress_ok p self) as (self1 & H1 & Hs1 & _).
    destruct (IH self1) as (self' & H' & Hs').
    exists self'. cbn [update_progresses]. rewrite H1. cbn [mbind result_bind].
    split; [exact H'|]. rewrite Hs', Hs1. reflexivity.
Qed.

Lemma update_progresses_other (records : list UserProgress.t) : ∀ self self' k,
  update_progresses records self = Ok self' →
  k ∉ map UserProgress_key records →
  progress (history self') !! k = progress (history self) !! k.
Proof.
  induction records as [|p records IH]; intros self self' k H Hk.
  - injection H as <-. reflexivity.
  - cbn [update_progresses] in H.
    destruct (update_progress_ok p self) as (self1 & H1 & _ & Hp1 & _).
    rewrite H1 in H. cbn [mbind result_bind] in H.
    cbn [map] in Hk. apply not_elem_of_cons in Hk as [Hne Hk].
    rewrite (IH self1 self' k H Hk), Hp1.
    apply lookup_insert_ne. unfold UserProgress_key in Hne. congruence.
Qed.

(** X5. Stored one after the other, records with pairwise different keys,
    none of them in the store yet, make the store grow by one record each,
    and each is what [get_topic_progress] returns for its topic and
    language afterwards; the sessions are as they were. *)
Theorem update_progresses_distinct_keys (records : list UserProgress.t) :
  ∀ self : InterviewService,
  NoDup (map UserProgress_key records) →
  (∀ p, p ∈ records → progress (history self) !! UserProgress_key p = None) →
  ∃ self', update_progresses records self = Ok self' ∧
    size (progress (history self'))
    = (size (progress (history self)) + length records)%nat ∧
    (∀ p, p ∈ records →
          get_topic_progress (UserProgress.topic p) (UserProgress.language p) self'
          = Some p) ∧
    sessions (history self') = sessions (history self).
Proof.
  induction records as [|p records IH]; intros self Hnd Hfresh.
  - exists self. split; [reflexivity|]. split; [cbn; lia|]. split; [|reflexivity].
    intros p Hp. apply elem_of_nil in Hp. destruct Hp.
  - cbn [map] in Hnd. apply NoDup_cons in Hnd as [Hnotin Hnd].
    destruct (update_progress_ok p self) as (self1 & H1 & Hs1 & Hp1 & _).
    assert (Hfresh1 : ∀ q, q ∈ records →
              progress (history self1) !! UserProgress_key q = None).
    { intros q Hq. rewrite Hp1. rewrite lookup_insert_ne.
      - apply Hfresh. apply elem_of_cons. right. exact Hq.
      - intros Heq. apply Hnotin. apply list_elem_of_fmap.
        exists q. split; [exact Heq|exact Hq]. }
    destruct (IH self1 Hnd Hfresh1) as (self' & H' & Hsize & Hget & Hs').
    exists self'. cbn [update_progresses]. rewrite H1. cbn [mbind result_bind].
    split; [exact H'|]. split; [|split].
    + rewrite Hsize, Hp1. rewrite map_size_insert_None.
      * cbn [length]. lia.
      * apply (Hfresh p). apply elem_of_cons. left. reflexivity.
    + intros q Hq. apply elem_of_cons in Hq as [->|Hq]; [|apply Hget, Hq].
      unfold get_topic_progress. fold (UserProgress_key p).
      rewrite (update_progresses_other records self1 self' _ H' Hnotin), Hp1.
      apply lookup_insert_eq.
    + rewrite Hs', Hs1. reflexivity.
Qed.

Lemma update_progresses_distinct_keys_witness :
  ∃ self',
    update_progresses [sample_progress; progress_A_B__C] empty_service = Ok self' ∧
    size (progress (history self')) = 2%nat.
Proof.
  destruct (update_progresses_distinct_keys [sample_progress; progress_A_B__C]
              empty_service) as (self' & H & Hsize & _).
  - apply NoDup_cons. split; [|apply NoDup_singleton].
    intros Hin. apply list_elem_of_singleton in Hin. discriminate Hin.
  - intros p _. reflexivity.
  - exists self'. split; [exact H|exact Hsize].
Defined.

(** ** More on grading *)

Lemma record_score_other_fields s r p :
  UserProgress.skill_level (record_score s r p) = UserProgress.skill_level p ∧
  UserProgress.confidence_score (record_score s r p) = UserProgress.confidence_score p ∧
  UserProgress.last_session (record_score s r p) = UserProgress.last_session p ∧
  UserProgress.recommended_topics (record_score s r p)
  = UserProgress.recommended_topics p.
Proof. unfold record_score. repeat case_match; repeat split. Qed.

(** X6. A graded answer touches one thing only. [evaluate_answer] hands the
    evaluation back as it got it and leaves the sessions and the records of
    every other key alone; in the record of the question's topic and
    language it changes the score of the question's subtopic and, at most,
    the mastered subtopics: skill level, confidence, last session,
    recommended topics and the scores of the other subtopics stay. *)
Theorem evaluate_answer_frame (question : Question.t) (user_answer language : string)
    (evaluation res : pyval) (self self' : InterviewService) :
  well_keyed (history self) →
  evaluate_answer question user_answer language evaluation self = Ok (res, self') →
  res = evaluation ∧
  sessions (history self') = sessions (history self) ∧
  (∀ k, k ≠ progress_key (Question.topic question) language →
        progress (history self') !! k = progress (history self) !! k) ∧
  (get_topic_progress (Question.topic question) language self = None → self' = self) ∧
  (∀ p, get_topic_progress (Question.topic question) language self = Some p →
     ∃ p', get_topic_progress (Question.topic question) language self' = Some p' ∧
       UserProgress.topic p' = UserProgress.topic p ∧
       UserProgress.language p' = UserProgress.language p ∧
       UserProgress.skill_level p' = UserProgress.skill_level p ∧
       UserProgress.confidence_score p' = UserProgress.confidence_score p ∧
       UserProgress.last_session p' = UserProgress.last_session p ∧
       UserProgress.recommended_topics p' = UserProgress.recommended_topics p ∧
       (∀ s, s ≠ Question.subtopic question →
             UserProgress.subtopic_scores p' !! s = UserProgress.subtopic_scores p !! s)).
Proof.
  intros Hwk He.
  destruct (evaluate_answer_cases question user_answer language evaluation self)
    as [[e Hr]|[Hsame|(p & r & self1 & Hp & He1 & Hup)]].
  - rewrite Hr in He. discriminate He.
  - rewrite Hsame in He. injection He as <- <-.
    split; [reflexivity|]. split; [reflexivity|]. split; [reflexivity|].
    split; [reflexivity|]. intros p Hp. exists p. split; [exact Hp|]. repeat split.
  - rewrite He1 in He. injection He as <- <-.
    destruct (update_progress_ok (record_score (Question.subtopic question) r p) self)
      as (self2 & Hup2 & Hsess & Hprog & _).
    rewrite Hup in Hup2. injection Hup2 as <-.
    rewrite record_score_topic, record_score_language in Hprog.
    rewrite <- (Hwk _ _ Hp) in Hprog.
    split; [reflexivity|]. split; [exact Hsess|]. split; [|split].
    + intros k Hk. rewrite Hprog. apply lookup_insert_ne. congruence.
    + intros Hnone. rewrite Hnone in Hp. discriminate Hp.
    + intros p0 Hp0. rewrite Hp in Hp0. injection Hp0 as <-.
      exists (record_score (Question.subtopic question) r p).
      destruct (record_score_other_fields (Question.subtopic question) r p)
        as (H1 & H2 & H3 & H4).
      split; [unfold get_topic_progress; rewrite Hprog; apply lookup_insert_eq|].
      split; [apply record_score_topic|]. split; [apply record_score_language|].
      split; [exact H1|]. split; [exact H2|]. split; [exact H3|]. split; [exact H4|].
      intros s Hs. rewrite record_score_scores. apply lookup_insert_ne. congruence.
Qed.

Lemma evaluate_answer_frame_witness :
  ∃ self',
    evaluate_answer generators_question EmptyString "EN"
      (evaluation_with (PFloat (95 # 100))) sample_service
    = Ok (evaluation_with (PFloat (95 # 100)), self') ∧
    sessions (history self') = [sample_session].
Proof.
  destruct (evaluate_answer_graded generators_question EmptyString "EN"
              (evaluation_with (PFloat (95 # 100))) (PFloat (95 # 100)) (95 # 100)%Q
              sample_progress sample_service eq_refl eq_refl eq_refl)
    as (self' & He & _).
  exists self'. split; [exact He|].
  exact (proj1 (proj2 (evaluate_answer_frame _ _ _ _ _ _ _
                         sample_service_well_keyed He))).
Defined.












(** ** More on the analysis of a session *)

Lemma required_raises {A} (validate : pyval → option A) kwargs name e :
  required validate kwargs name = Raise e → e = ValidationError.
Proof.
  unfold required. destruct (dict_get kwargs name) as [v|]; [|congruence].
  destruct (validate v); congruence.
Qed.

Lemma required_present {A} (validate : pyval → option A) kwargs name a :
  required validate kwargs name = Ok a → dict_get kwargs name ≠ None.
Proof.
  unfold required. destruct (dict_get kwargs name) as [v|]; [discriminate|].
  discriminate.
Qed.

(** X11. What [analyze_performance] takes from the oracle is the skill
    level, the confidence and the recommendations, nothing else. A record
    it returns carries the topic and the language of the call and the time
    of the call, and, when the store has no record for them, no mastered
    subtopic and no score. An analysis that is no object, or that names a
    keyword the call passes itself, is a [TypeError]; one that lacks an
    expected field is a [ValidationError]. *)
Theorem analyze_performance_edges
    (validate_str : pyval → option string) (validate_float : pyval → option Q)
    (validate_str_list : pyval → option (list string))
    (topic : string) (session_data : InterviewSession.t) (language : string)
    (now : datetime) (analysis : pyval) (self : InterviewService) :
  let result :=
    analyze_performance validate_str validate_float validate_str_list
      topic session_data language now analysis self in
  (∀ p, result = Ok p →
        UserProgress.topic p = topic ∧ UserProgress.language p = language ∧
        UserProgress.last_session p = Some now ∧
        (get_topic_progress topic language self = None →
         UserProgress.mastered_subtopics p = [] ∧
         UserProgress.subtopic_scores p = ∅)) ∧
  ((∀ kwargs, analysis ≠ PDict kwargs) → result = Raise TypeError) ∧
  (∀ kwargs name,
     analysis = PDict kwargs → name ∈ explicit_keywords →
     is_Some (dict_get kwargs name) → result = Raise TypeError) ∧
  (∀ kwargs,
     analysis = PDict kwargs →
     (∀ name, name ∈ explicit_keywords → dict_get kwargs name = None) →
     dict_get kwargs "skill_level" = None ∨
     dict_get kwargs "confidence_score" = None ∨
     dict_get kwargs "recommended_topics" = None →
     result = Raise ValidationError).
Proof.
  cbv zeta. unfold analyze_performance. split; [|split; [|split]].
  - intros p Hp.
    destruct (py_kwargs analysis) as [kwargs|e]; cbn [mbind result_bind] in Hp;
      [|discriminate Hp].
    destruct (existsb _ explicit_keywords); [discriminate Hp|].
    destruct (required validate_str kwargs "skill_level") as [sl|e];
      cbn [mbind result_bind] in Hp; [|discriminate Hp].
    destruct (required validate_float kwargs "confidence_score") as [cs|e];
      cbn [mbind result_bind] in Hp; [|discriminate Hp].
    destruct (required validate_str_list kwargs "recommended_topics") as [rt|e];
      cbn [mbind result_bind] in Hp; [|discriminate Hp].
    injection Hp as <-. cbn.
    split; [reflexivity|]. split; [reflexivity|]. split; [reflexivity|].
    intros ->. split; reflexivity.
  - intros Hno. destruct analysis; try reflexivity. destruct (Hno kvs eq_refl).
  - intros kwargs name -> Hname Hsome. cbn [py_kwargs mbind result_bind].
    assert (Hex : existsb (fun name => bool_decide (is_Some (dict_get kwargs name)))
                    explicit_keywords = true).
    { apply existsb_exists. exists name. split.
      - apply list_elem_of_In. exact Hname.
      - apply bool_decide_eq_true. exact Hsome. }
    rewrite Hex. reflexivity.
  - intros kwargs -> Hnone Hmissing. cbn [py_kwargs mbind result_bind].
    assert (Hex : existsb (fun name => bool_decide (is_Some (dict_get kwargs name)))
                    explicit_keywords = false).
    { apply not_true_is_false. intros Hex. apply existsb_exists in Hex as (name & Hin & Hb).
      apply bool_decide_eq_true in Hb. apply list_elem_of_In in Hin.
      rewrite (Hnone name Hin) in Hb. destruct Hb as [x Hx]. discriminate Hx. }
    rewrite Hex.
    destruct (required validate_str kwargs "skill_level") as [sl|e] eqn:H1;
      [|rewrite (required_raises _ _ _ _ H1); reflexivity].
    cbn [mbind result_bind].
    destruct (required validate_float kwargs "confidence_score") as [cs|e] eqn:H2;
      [|rewrite (required_raises _ _ _ _ H2); reflexivity].
    cbn [mbind result_bind].
    destruct (required validate_str_list kwargs "recommended_topics") as [rt|e] eqn:H3;
      [|rewrite (required_raises _ _ _ _ H3); reflexivity].
    apply required_present in H1, H2, H3.
    destruct Hmissing as [H|[H|H]]; contradiction.
Qed.

(** ** More on the prompt *)





(** ** The session state of the script *)

Lemma set_default_union (key : string) (value : session_value)
    (state : gmap string session_value) :
  set_default key value state = state ∪ {[key := value]}.
Proof.
  unfold set_default. apply map_eq. intros k.
  destruct (state !! key) as [v|] eqn:Hk.
  - destruct (state !! k) as [x|] eqn:Hx.
    + symmetry. apply lookup_union_Some_l. exact Hx.
    + rewrite lookup_union_r by exact Hx.
      rewrite lookup_singleton_ne; [reflexivity|]. intros ->. congruence.
  - destruct (decide (key = k)) as [<-|Hne].
    + rewrite lookup_insert_eq, lookup_union_r by exact Hk.
      rewrite lookup_singleton_eq. reflexivity.
    + rewrite lookup_insert_ne by exact Hne.
      destruct (state !! k) as [x|] eqn:Hx.
      * symmetry. apply lookup_union_Some_l. exact Hx.
      * rewrite lookup_union_r by exact Hx.
        rewrite lookup_singleton_ne by exact Hne. reflexivity.
Qed.

Lemma initialize_session_state_union (state : gmap string session_value) :
  initialize_session_state state = state ∪ SessionState.dump SessionState.initial.
Proof.
  unfold initialize_session_state. rewrite !set_default_union.
  rewrite <- !(assoc_L (∪)). f_equal.
Qed.

Lemma dump_keys (s : SessionState.t) (k : string) :
  is_Some (SessionState.dump s !! k) ↔ k ∈ session_keys.
Proof.
  unfold SessionState.dump, session_keys. rewrite <- elem_of_dom.
  rewrite !dom_insert_L, dom_empty_L. set_solver.
Qed.

(** X13. [initialize_session_state] fills in what is missing and nothing
    else: a value already in the session state survives, the nine keys of
    the script are set afterwards, no other key is touched, and a second
    call changes nothing. On the empty state it gives the defaults; on a
    state that has all nine keys it is the identity, so the counters of a
    session survive the reruns of the script. *)
Theorem initialize_session_state_keeps (state : gmap string session_value) :
  (∀ k v, state !! k = Some v → initialize_session_state state !! k = Some v) ∧
  (∀ k, k ∈ session_keys → is_Some (initialize_session_state state !! k)) ∧
  (∀ k, k ∉ session_keys → initialize_session_state state !! k = state !! k) ∧
  initialize_session_state (initialize_session_state state)
  = initialize_session_state state ∧
  initialize_session_state ∅ = SessionState.dump SessionState.initial ∧
  (∀ s, initialize_session_state (SessionState.dump s) = SessionState.dump s).
Proof.
  split; [|split; [|split; [|split; [|split]]]].
  - intros k v Hk. rewrite initialize_session_state_union.
    apply lookup_union_Some_l. exact Hk.
  - intros k Hk. rewrite initialize_session_state_union.
    apply (dump_keys SessionState.initial) in Hk as [x Hx].
    destruct (state !! k) as [y|] eqn:Hy.
    + exists y. apply lookup_union_Some_l. exact Hy.
    + exists x. rewrite lookup_union_r by exact Hy. exact Hx.
  - intros k Hk. rewrite initialize_session_state_union.
    destruct (state !! k) as [y|] eqn:Hy.
    + apply lookup_union_Some_l. exact Hy.
    + rewrite lookup_union_r by exact Hy.
      destruct (SessionState.dump SessionState.initial !! k) as [x|] eqn:Hx;
        [|reflexivity].
      exfalso. apply Hk. apply (dump_keys SessionState.initial). eexists. exact Hx.
  - rewrite !initialize_session_state_union.
    rewrite <- (assoc_L (∪)). rewrite (idemp_L (∪)). reflexivity.
  - rewrite initialize_session_state_union. apply (left_id_L ∅ (∪)).
  - intros s. rewrite initialize_session_state_union.
    apply map_eq. intros k.
    destruct (SessionState.dump s !! k) as [x|] eqn:Hx.
    + apply lookup_union_Some_l. exact Hx.
    + rewrite lookup_union_r by exact Hx.
      destruct (SessionState.dump SessionState.initial !! k) as [y|] eqn:Hy;
        [|reflexivity].
      exfalso. assert (Hk : k ∈ session_keys).
      { apply (dump_keys SessionState.initial). eexists. exact Hy. }
      apply (dump_keys s) in Hk as [z Hz]. congruence.
Qed.

(** ** Submitting an answer *)

Lemma py_getitem_contains (container v : pyval) (k : string) :
  py_getitem container k = Ok v → py_contains k container = Ok true.
Proof.
  destruct container; try discriminate. cbn [py_getitem py_contains].
  destruct (dict_get kvs k); [reflexivity|discriminate].
Qed.

Lemma evaluate_answer_returns_evaluation question user_answer language evaluation
    self res self' :
  evaluate_answer question user_answer language evaluation self = Ok (res, self') →
  res = evaluation ∧ sessions (history self') = sessions (history self).
Proof.
  intros He.
  destruct (evaluate_answer_cases question user_answer language evaluation self)
    as [[e Hr]|[Hsame|(p & r & self1 & Hp & He1 & Hup)]].
  - rewrite Hr in He. discriminate He.
  - rewrite Hsame in He. injection He as <- <-. split; reflexivity.
  - rewrite He1 in He. injection He as <- <-. split; [reflexivity|].
    destruct (update_progress_ok (record_score (Question.subtopic question) r p) self)
      as (self2 & Hup2 & Hs & _).
    rewrite Hup in Hup2. injection Hup2 as <-. exact Hs.
Qed.

Lemma graded_state (is_correct tips : pyval) (s : SessionState.t) :
  let s1 :=
    mark_submitted
      (note_improvement tips
         (count_asked (if py_truthy is_correct then count_correct s else s))) in
  SessionState.questions_asked s1 = (SessionState.questions_asked s + 1)%Z ∧
  SessionState.correct_answers s1
  = (SessionState.correct_answers s + if py_truthy is_correct then 1 else 0)%Z ∧
  SessionState.improvement_areas s1 = SessionState.improvement_areas s ++ [tips] ∧
  SessionState.language s1 = SessionState.language s ∧
  SessionState.answer_submitted s1 = true ∧
  SessionState.current_question s1 = SessionState.current_question s ∧
  SessionState.previous_questions s1 = SessionState.previous_questions s ∧
  reset_session s1 = reset_session s.
Proof.
  cbv zeta. destruct (py_truthy is_correct); cbn; repeat split; lia.
Qed.

Section ScriptProperties.
Variable validate_str : pyval → option string.
Variable validate_float : pyval → option Q.
Variable validate_str_list : pyval → option (list string).

(** The state a submitted answer leaves before the end-of-session check. *)
Lemma main_submit_graded (selected_topic difficulty user_answer : string)
    (evaluation : pyval) (now analysed_at : datetime) (analysis : pyval)
    (w w' : World) (o : outcome) (question : Question.t) :
  SessionState.current_question (session_state w) = Some question →
  SessionState.answer_submitted (session_state w) = false →
  main_submit validate_str validate_float validate_str_list true selected_topic
    difficulty user_answer evaluation now analysed_at analysis w = (w', o) →
  (∀ e, o ≠ Raised e) →
  ∃ service1 is_correct tips,
    evaluate_answer question user_answer (SessionState.language (session_state w))
      evaluation (service w) = Ok (evaluation, service1) ∧
    py_getitem evaluation "is_correct" = Ok is_correct ∧
    py_getitem evaluation "improvement_tips" = Ok tips ∧
    main_finish validate_str validate_float validate_str_list selected_topic difficulty
      now analysed_at analysis
      (mk_World
         (mark_submitted
            (note_improvement tips
               (count_asked (if py_truthy is_correct
                             then count_correct (session_state w)
                             else session_state w))))
         service1)
    = (w', o).
Proof.
  intros Hq Hsub H Hok. unfold main_submit in H. rewrite Hq, Hsub in H.
  cbn [negb orb] in H.
  destruct (evaluate_answer question user_answer _ evaluation (service w))
    as [[res service1]|e] eqn:He;
    [|injection H as _ <-; destruct (Hok e eq_refl)].
  destruct (evaluate_answer_returns_evaluation _ _ _ _ _ _ _ He) as [-> _].
  destruct (py_getitem evaluation "is_correct") as [is_correct|e] eqn:H1;
    [|injection H as _ <-; destruct (Hok e eq_refl)].
  destruct (py_getitem evaluation "explanation") as [expl|e] eqn:H2;
    [|injection H as _ <-; destruct (Hok e eq_refl)].
  destruct (py_getitem evaluation "improvement_tips") as [tips|e] eqn:H3;
    [|injection H as _ <-; destruct (Hok e eq_refl)].
  rewrite (py_getitem_contains _ _ _ H3) in H. cbn [mbind result_bind] in H.
  exists service1, is_correct, tips. auto.
Qed.

Lemma main_finish_cases (selected_topic difficulty : string) (now analysed_at : datetime)
    (analysis : pyval) (w w' : World) (o : outcome) :
  main_finish validate_str validate_float validate_str_list selected_topic difficulty
    now analysed_at analysis w = (w', o) →
  (∀ e, o ≠ Raised e) →
  (o = Returned ∧ w' = w ∧
   (SessionState.questions_asked (session_state w) < QUESTIONS_PER_SESSION)%Z) ∨
  (o = Rerun ∧
   (QUESTIONS_PER_SESSION <= SessionState.questions_asked (session_state w))%Z ∧
   ∃ areas progress service1,
     validate_str_list (PList (SessionState.improvement_areas (session_state w)))
     = Some areas ∧
     let session :=
       InterviewSession.mk selected_topic now
         (SessionState.questions_asked (session_state w))
         (SessionState.correct_answers (session_state w)) difficulty
         (SessionState.language (session_state w)) areas [] in
     save_session session (service w) = Ok service1 ∧
     analyze_performance validate_str validate_float validate_str_list selected_topic
       session (SessionState.language (session_state w)) analysed_at analysis service1
     = Ok progress ∧
     update_progress progress service1 = Ok (service w') ∧
     session_state w' = reset_session (session_state w)).
Proof.
  intros H Hok. unfold main_finish in H.
  destruct (QUESTIONS_PER_SESSION <=? _)%Z eqn:Hn.
  - apply Z.leb_le in Hn.
    destruct (validate_str_list _) as [areas|] eqn:Hv;
      [|injection H as _ <-; destruct (Hok _ eq_refl)].
    destruct (save_session _ (service w)) as [service1|e] eqn:Hs;
      [|injection H as _ <-; destruct (Hok e eq_refl)].
    destruct (analyze_performance _ _ _ _ _ _ _ _ service1) as [progress|e] eqn:Ha;
      [|injection H as _ <-; destruct (Hok e eq_refl)].
    destruct (update_progress progress service1) as [service2|e] eqn:Hu;
      [|injection H as _ <-; destruct (Hok e eq_refl)].
    injection H as <- <-. right. split; [reflexivity|]. split; [exact Hn|].
    exists areas, progress, service1. cbv zeta. cbn [session_state service]. auto.
  - apply Z.leb_gt in Hn. injection H as <- <-. left. auto.
Qed.

(** X14. A submitted answer that does not end the session counts once:
    [questions_asked] grows by one, [correct_answers] by one exactly when
    the evaluation's [is_correct] counts as true, one improvement note, the
    evaluation's [improvement_tips], is appended, the answer is marked as
    submitted, and the question, the previous questions and the stored
    sessions are as before. *)
Theorem main_submit_counts (selected_topic difficulty user_answer : string)
    (evaluation : pyval) (now analysed_at : datetime) (analysis : pyval)
    (w w' : World) (question : Question.t) :
  SessionState.current_question (session_state w) = Some question →
  SessionState.answer_submitted (session_state w) = false →
  main_submit validate_str validate_float validate_str_list true selected_topic
    difficulty user_answer evaluation now analysed_at analysis w = (w', Returned) →
  ∃ is_correct tips,
    py_getitem evaluation "is_correct" = Ok is_correct ∧
    py_getitem evaluation "improvement_tips" = Ok tips ∧
    SessionState.questions_asked (session_state w')
    = (SessionState.questions_asked (session_state w) + 1)%Z ∧
    SessionState.correct_answers (session_state w')
    = (SessionState.correct_answers (session_state w)
       + if py_truthy is_correct then 1 else 0)%Z ∧
    SessionState.improvement_areas (session_state w')
    = SessionState.improvement_areas (session_state w) ++ [tips] ∧
    SessionState.answer_submitted (session_state w') = true ∧
    (SessionState.questions_asked (session_state w') < QUESTIONS_PER_SESSION)%Z ∧
    SessionState.current_question (session_state w') = Some question ∧
    SessionState.previous_questions (session_state w')
    = SessionState.previous_questions (session_state w) ∧
    sessions (history (service w')) = sessions (history (service w)).
Proof.
  intros Hq Hsub H.
  destruct (main_submit_graded _ _ _ _ _ _ _ _ _ _ _ Hq Hsub H)
    as (service1 & is_correct & tips & He & H1 & H3 & Hfin); [discriminate|].
  destruct (main_finish_cases _ _ _ _ _ _ _ _ Hfin) as [(_ & -> & Hn)|(Ho & _)];
    [discriminate| |discriminate Ho].
  exists is_correct, tips. cbn [session_state service] in *.
  destruct (evaluate_answer_returns_evaluation _ _ _ _ _ _ _ He) as [_ Hs].
  split; [exact H1|]. split; [exact H3|].
  destruct (py_truthy is_correct); cbn in *;
    (split; [reflexivity|]); (split; [lia|]); (split; [reflexivity|]);
    (split; [reflexivity|]); (split; [exact Hn|]); (split; [exact Hq|]);
    (split; [reflexivity|exact Hs]).
Qed.
(** X15. The counters of a session stay consistent over every submitted
    answer that goes through: there are never more correct answers than
    answers, there is one improvement note per answer, and the number of
    answers stays below the session length, the state being reset when it
    is reached. *)
Theorem main_submit_keeps_counters (clicked : bool)
    (selected_topic difficulty user_answer : string)
    (evaluation : pyval) (now analysed_at : datetime) (analysis : pyval)
    (w w' : World) (o : outcome) :
  counters_consistent (session_state w) →
  main_submit validate_str validate_float validate_str_list clicked selected_topic
    difficulty user_answer evaluation now analysed_at analysis w = (w', o) →
  (∀ e, o ≠ Raised e) →
  counters_consistent (session_state w').
Proof.
  intros Hc H Hok.
  destruct (SessionState.current_question (session_state w)) as [question|] eqn:Hq;
    [|unfold main_submit in H; rewrite Hq in H; injection H as <- _; exact Hc].
  destruct (SessionState.answer_submitted (session_state w)) eqn:Hsub;
    [unfold main_submit in H; rewrite Hq, Hsub in H; injection H as <- _; exact Hc|].
  destruct clicked;
    [|unfold main_submit in H; rewrite Hq, Hsub in H; injection H as <- _; exact Hc].
  destruct (main_submit_graded _ _ _ _ _ _ _ _ _ _ _ Hq Hsub H Hok)
    as (service1 & is_correct & tips & He & H1 & H3 & Hfin).
  destruct Hc as (Hc0 & Hc1 & Hc2 & Hc3).
  destruct (main_finish_cases _ _ _ _ _ _ _ _ Hfin Hok)
    as [(_ & -> & Hn)|(_ & _ & areas & progress & service2 & _ & _ & _ & _ & ->)].
  - cbn [session_state] in *. unfold counters_consistent.
    destruct (py_truthy is_correct); cbn in *;
      rewrite ?length_app; cbn [length]; repeat split; lia.
  - unfold reset_session, counters_consistent, QUESTIONS_PER_SESSION. cbn.
    repeat split; lia.
Qed.


(** X16. The answer that completes a session stores it once and in full:
    the session list gains one record, with the selected topic and
    difficulty, the language, the timestamp and the counters as they are
    after this answer; the progress record built from the analysis is what
    [get_topic_progress] returns for the selected topic and the language;
    and the session state is reset for a new session, the language kept. *)
Theorem main_submit_completes_session (selected_topic difficulty user_answer : string)
    (evaluation : pyval) (now analysed_at : datetime) (analysis : pyval)
    (w w' : World) (question : Question.t) :
  SessionState.current_question (session_state w) = Some question →
  SessionState.answer_submitted (session_state w) = false →
  main_submit validate_str validate_float validate_str_list true selected_topic
    difficulty user_answer evaluation now analysed_at analysis w = (w', Rerun) →
  ∃ is_correct session progress,
    py_getitem evaluation "is_correct" = Ok is_correct ∧
    sessions (history (service w')) = sessions (history (service w)) ++ [session] ∧
    InterviewSession.topic session = selected_topic ∧
    InterviewSession.difficulty_level session = difficulty ∧
    InterviewSession.language session = SessionState.language (session_state w) ∧
    InterviewSession.timestamp session = now ∧
    InterviewSession.questions_asked session
    = (SessionState.questions_asked (session_state w) + 1)%Z ∧
    InterviewSession.correct_answers session
    = (SessionState.correct_answers (session_state w)
       + if py_truthy is_correct then 1 else 0)%Z ∧
    (QUESTIONS_PER_SESSION <= InterviewSession.questions_asked session)%Z ∧
    get_topic_progress selected_topic (SessionState.language (session_state w))
      (service w') = Some progress ∧
    UserProgress.last_session progress = Some analysed_at ∧
    session_state w' = reset_session (session_state w).
Proof.
  intros Hq Hsub H.
  destruct (main_submit_graded _ _ _ _ _ _ _ _ _ _ _ Hq Hsub H)
    as (service1 & is_correct & tips & He & H1 & H3 & Hfin); [discriminate|].
  destruct (main_finish_cases _ _ _ _ _ _ _ _ Hfin)
    as [(Ho & _)|(_ & Hn & areas & progress & service2 & Hv & Hsave & Han & Hup & Hst)];
    [discriminate|discriminate Ho|].
  cbn [session_state service] in Hn, Hv, Hsave, Han, Hup, Hst.
  destruct (graded_state is_correct tips (session_state w))
    as (Ga & Gc & _ & Gl & _ & _ & _ & Gr).
  rewrite Ga, Gc, Gl in Hsave, Han. rewrite Ga in Hn.
  rewrite Gr in Hst.
  destruct (evaluate_answer_returns_evaluation _ _ _ _ _ _ _ He) as [_ Hs1].
  match type of Hsave with save_session ?s _ = _ =>
    destruct (save_session_ok s service1) as (s2 & Hs2 & Hsess2 & _);
    exists is_correct, s, progress end.
  rewrite Hsave in Hs2. injection Hs2 as <-.
  destruct (update_progress_ok progress service2) as (s3 & Hs3 & Hsess3 & Hprog3 & _).
  rewrite Hup in Hs3. injection Hs3 as Hs3.
  assert (Hfields : UserProgress.topic progress = selected_topic ∧
                    UserProgress.language progress
                    = SessionState.language (session_state w) ∧
                    UserProgress.last_session progress = Some analysed_at).
  { unfold analyze_performance in Han.
    destruct (py_kwargs analysis) as [kwargs|e]; cbn [mbind result_bind] in Han;
      [|discriminate Han].
    destruct (existsb _ explicit_keywords); [discriminate Han|].
    destruct (required validate_str kwargs "skill_level") as [sl|e];
      cbn [mbind result_bind] in Han; [|discriminate Han].
    destruct (required validate_float kwargs "confidence_score") as [cs|e];
      cbn [mbind result_bind] in Han; [|discriminate Han].
    destruct (required validate_str_list kwargs "recommended_topics") as [rt|e];
      cbn [mbind result_bind] in Han; [|discriminate Han].
    injection Han as <-. repeat split. }
  destruct Hfields as (Ft & Fl & Fs).
  split; [exact H1|]. split; [rewrite Hs3, Hsess3, Hsess2, Hs1; reflexivity|].
  cbn [InterviewSession.topic InterviewSession.difficulty_level
       InterviewSession.language InterviewSession.timestamp
       InterviewSession.questions_asked InterviewSession.correct_answers].
  split; [reflexivity|]. split; [reflexivity|]. split; [reflexivity|].
  split; [reflexivity|]. split; [reflexivity|]. split; [reflexivity|].
  split; [exact Hn|]. split; [|split; [exact Fs|exact Hst]].
  unfold get_topic_progress. rewrite Hs3, Hprog3, Ft, Fl. apply lookup_insert_eq.
Qed.


(** X17. A question that was asked is named in the prompt of the next one:
    after [get_next_question], the run that generates the new question puts
    the current question behind the previous ones, whether or not the
    oracle's reply then yields a question, and the prompt it sends contains
    the text of the current question and of every previous one. *)
Theorem next_prompt_names_asked_questions (selected_topic difficulty : string)
    (question_data : pyval) (w : World) (question : Question.t) :
  SessionState.current_question (session_state w) = Some question →
  let run :=
    main_new_question validate_str selected_topic difficulty question_data
      (fst (get_next_question w)) in
  SessionState.previous_questions (session_state (fst (fst run)))
  = SessionState.previous_questions (session_state w) ++ [question] ∧
  ∃ prompt,
    snd run = Some prompt ∧
    prompt = generate_question_prompt selected_topic difficulty
               (SessionState.language (session_state w))
               (Some (SessionState.previous_questions (session_state w) ++ [question]))
               (service w) ∧
    ∀ q, q = question ∨ q ∈ SessionState.previous_questions (session_state w) →
         occurs_in (Question.question_text q) prompt.
Proof.
  intros Hq. cbv zeta. unfold get_next_question, main_new_question.
  cbn [fst snd session_state service SessionState.needs_new_question
       SessionState.current_question SessionState.previous_questions
       SessionState.language].
  rewrite Hq. unfold generate_question.
  destruct (Question_init validate_str question_data) as [q'|e];
    cbn [fst snd session_state SessionState.previous_questions].
  - split; [reflexivity|]. eexists. split; [reflexivity|]. split; [reflexivity|].
    intros q Hin. unfold generate_question_prompt.
    assert (H : occurs_in (Question.question_text q)
                  (previous_questions_text
                     (Some (SessionState.previous_questions (session_state w)
                            ++ [question])))).
    { apply (previous_questions_text_occurs _ q); [|left; reflexivity].
      apply elem_of_app. destruct Hin as [->|Hin]; [right|left; exact Hin].
      apply list_elem_of_singleton. reflexivity. }
    find_occurrence.
  - split; [reflexivity|]. eexists. split; [reflexivity|]. split; [reflexivity|].
    intros q Hin. unfold generate_question_prompt.
    assert (H : occurs_in (Question.question_text q)
                  (previous_questions_text
                     (Some (SessionState.previous_questions (session_state w)
                            ++ [question])))).
    { apply (previous_questions_text_occurs _ q); [|left; reflexivity].
      apply elem_of_app. destruct Hin as [->|Hin]; [right|left; exact Hin].
      apply list_elem_of_singleton. reflexivity. }
    find_occurrence.
Qed.

End ScriptProperties.

Lemma main_submit_keeps_counters_witness :
  ∃ w' o,
    main_submit json_str json_float json_str_list true "Python" "Intermediate" "answer"
      (evaluation_with (PFloat (95 # 100))) sample_time sample_time sample_analysis
      early_world = (w', o) ∧
    counters_consistent (session_state w').
Proof.
  remember (main_submit json_str json_float json_str_list true "Python" "Intermediate"
              "answer" (evaluation_with (PFloat (95 # 100))) sample_time sample_time
              sample_analysis early_world) as run eqn:Hrun.
  assert (Ho : snd run = Returned) by (subst run; reflexivity).
  destruct run as [w' o]. cbn [snd] in Ho. subst o.
  exists w', Returned. split; [reflexivity|].
  refine (main_submit_keeps_counters json_str json_float json_str_list true
            "Python" "Intermediate" "answer" (evaluation_with (PFloat (95 # 100)))
            sample_time sample_time sample_analysis early_world w' Returned
            _ (eq_sym Hrun) _).
  - unfold counters_consistent, QUESTIONS_PER_SESSION. cbn. repeat split; lia.
  - intros e. discriminate.
Defined.

Lemma next_prompt_names_asked_questions_witness :
  ∃ prompt,
    snd (main_new_question json_str "Python" "Intermediate" PNone
           (fst (get_next_question sample_world))) = Some prompt ∧
    occurs_in "What does yield do?" prompt.
Proof.
  destruct (proj2 (next_prompt_names_asked_questions json_str "Python" "Intermediate"
                     PNone sample_world generators_question eq_refl))
    as (prompt & H1 & _ & H3).
  exists prompt. split; [exact H1|]. apply (H3 generators_question). left. reflexivity.
Defined.

Lemma main_submit_counts_witness :
  ∃ w',
    main_submit json_str json_float json_str_list true "Python" "Intermediate" "answer"
      (evaluation_with (PFloat (95 # 100))) sample_time sample_time sample_analysis
      early_world = (w', Returned) ∧
    SessionState.questions_asked (session_state w') = 2%Z.
Proof.
  remember (main_submit json_str json_float json_str_list true "Python" "Intermediate"
              "answer" (evaluation_with (PFloat (95 # 100))) sample_time sample_time
              sample_analysis early_world) as run eqn:Hrun.
  assert (Ho : snd run = Returned) by (subst run; reflexivity).
  destruct run as [w' o]. cbn [snd] in Ho. subst o.
  exists w'. split; [reflexivity|].
  destruct (main_submit_counts json_str json_float json_str_list
              "Python" "Intermediate" "answer" (evaluation_with (PFloat (95 # 100)))
              sample_time sample_time sample_analysis early_world w' generators_question
              eq_refl eq_refl (eq_sym Hrun))
    as (is_correct & tips & _ & _ & Hasked & _).
  rewrite Hasked. reflexivity.
Defined.

Lemma main_submit_completes_session_witness :
  ∃ w' session,
    main_submit json_str json_float json_str_list true "Python" "Intermediate" "answer"
      (evaluation_with (PFloat (95 # 100))) sample_time sample_time sample_analysis
      sample_world = (w', Rerun) ∧
    sessions (history (service w')) = [sample_session; session] ∧
    InterviewSession.questions_asked session = 5%Z.
Proof.
  remember (main_submit json_str json_float json_str_list true "Python" "Intermediate"
              "answer" (evaluation_with (PFloat (95 # 100))) sample_time sample_time
              sample_analysis sample_world) as run eqn:Hrun.
  assert (Ho : snd run = Rerun) by (subst run; reflexivity).
  destruct run as [w' o]. cbn [snd] in Ho. subst o.
  destruct (main_submit_completes_session json_str json_float json_str_list
              "Python" "Intermediate" "answer" (evaluation_with (PFloat (95 # 100)))
              sample_time sample_time sample_analysis sample_world w' generators_question
              eq_refl eq_refl (eq_sym Hrun))
    as (is_correct & session & progress & _ & Hs & _ & _ & _ & _ & Hn & _).
  exists w', session. split; [reflexivity|]. split; [exact Hs|].
  rewrite Hn. reflexivity.
Defined.

Section ScriptFailures.
Variable validate_str : pyval → option string.
Variable validate_float : pyval → option Q.
Variable validate_str_list : pyval → option (list string).

(** X18. An evaluation that says [is_correct] but has no [explanation]
    is counted by halves: [main]'s submit block raises [KeyError] after it
    has added the correct answer and before it adds the answer itself, so
    [correct_answers] is one more and [questions_asked] is as before, the
    answer is not marked as submitted, and the score [evaluate_answer]
    recorded stays recorded. *)
Theorem main_submit_half_counts (selected_topic difficulty user_answer : string)
    (evaluation is_correct : pyval) (now analysed_at : datetime) (analysis : pyval)
    (w : World) (question : Question.t) (service1 : InterviewService) :
  SessionState.current_question (session_state w) = Some question →
  SessionState.answer_submitted (session_state w) = false →
  evaluate_answer question user_answer (SessionState.language (session_state w))
    evaluation (service w) = Ok (evaluation, service1) →
  py_getitem evaluation "is_correct" = Ok is_correct →
  py_truthy is_correct = true →
  py_getitem evaluation "explanation" = Raise KeyError →
  ∃ w',
    main_submit validate_str validate_float validate_str_list true selected_topic
      difficulty user_answer evaluation now analysed_at analysis w
    = (w', Raised KeyError) ∧
    service w' = service1 ∧
    SessionState.correct_answers (session_state w')
    = (SessionState.correct_answers (session_state w) + 1)%Z ∧
    SessionState.questions_asked (session_state w')
    = SessionState.questions_asked (session_state w) ∧
    SessionState.improvement_areas (session_state w')
    = SessionState.improvement_areas (session_state w) ∧
    SessionState.answer_submitted (session_state w') = false.
Proof.
  intros Hq Hsub He H1 Ht H2. unfold main_submit.
  rewrite Hq, Hsub. cbn [negb orb]. rewrite He, H1, Ht, H2.
  eexists. split; [reflexivity|]. cbn. rewrite Hsub. repeat split.
Qed.

(** X19. A session whose last answer is counted but whose end fails, the
    improvement notes being refused by the session model or the analysis by
    [analyze_performance], is stuck: the answer is marked as submitted and
    the counter has reached the session length, so the submit block, the
    next-question button, the start button and the question generation all
    leave the state as it is, whatever is clicked and whatever the oracle
    would reply. *)
Theorem failed_session_end_is_stuck (selected_topic difficulty user_answer : string)
    (evaluation : pyval) (now analysed_at : datetime) (analysis : pyval)
    (w w' : World) (question : Question.t) (e : exn) :
  counters_consistent (session_state w) →
  SessionState.current_question (session_state w) = Some question →
  SessionState.answer_submitted (session_state w) = false →
  SessionState.needs_new_question (session_state w) = false →
  main_submit validate_str validate_float validate_str_list true selected_topic
    difficulty user_answer evaluation now analysed_at analysis w = (w', Raised e) →
  (QUESTIONS_PER_SESSION <= SessionState.questions_asked (session_state w'))%Z →
  ∀ (clicked : bool) (topic' difficulty' answer' : string)
    (evaluation' question_data' : pyval) (now' analysed_at' : datetime)
    (analysis' : pyval),
    main_submit validate_str validate_float validate_str_list clicked topic'
      difficulty' answer' evaluation' now' analysed_at' analysis' w' = (w', Returned) ∧
    main_next clicked w' = (w', Returned) ∧
    main_start clicked w' = (w', Returned) ∧
    main_new_question validate_str topic' difficulty' question_data' w'
    = (w', Returned, None).
Proof.
  intros (_ & _ & Hlt & _) Hq Hsub Hneed H Hn.
  assert (Hst : SessionState.current_question (session_state w') = Some question ∧
                SessionState.answer_submitted (session_state w') = true ∧
                SessionState.needs_new_question (session_state w') = false).
  { unfold main_submit in H. rewrite Hq, Hsub in H. cbn [negb orb] in H.
    destruct (evaluate_answer question user_answer _ evaluation (service w))
      as [[res service1]|e0];
      [|injection H as <- _; cbn [session_state] in Hn; lia].
    destruct (py_getitem res "is_correct") as [is_correct|e0];
      [|injection H as <- _; cbn [session_state] in Hn; lia].
    destruct (py_getitem res "explanation") as [expl|e0];
      [|injection H as <- _; cbn [session_state] in Hn;
        destruct (py_truthy is_correct); cbn in Hn; lia].
    destruct (py_getitem res "improvement_tips") as [tips|e0] eqn:H3;
      [|injection H as <- _; cbn [session_state] in Hn;
        destruct (py_truthy is_correct); cbn in Hn; lia].
    rewrite (py_getitem_contains _ _ _ H3) in H. cbn [mbind result_bind] in H.
    destruct (graded_state is_correct tips (session_state w))
      as (_ & _ & _ & _ & Gs & Gq & _ & _).
    assert (Gn : SessionState.needs_new_question
                   (mark_submitted
                      (note_improvement tips
                         (count_asked (if py_truthy is_correct
                                       then count_correct (session_state w)
                                       else session_state w))))
                 = SessionState.needs_new_question (session_state w)).
    { destruct (py_truthy is_correct); reflexivity. }
    unfold main_finish in H. cbn [session_state service] in H.
    destruct (QUESTIONS_PER_SESSION <=? _)%Z; [|discriminate H].
    destruct (validate_str_list _);
      [|injection H as <- _; cbn [session_state]; rewrite Gq, Gs, Gn; auto].
    destruct (save_session _ service1) as [service2|e0];
      [|injection H as <- _; cbn [session_state]; rewrite Gq, Gs, Gn; auto].
    destruct (analyze_performance _ _ _ _ _ _ _ _ service2) as [progress|e0];
      [|injection H as <- _; cbn [session_state]; rewrite Gq, Gs, Gn; auto].
    destruct (update_progress progress service2) as [service3|e0];
      [discriminate H|injection H as <- _; cbn [session_state]; rewrite Gq, Gs, Gn; auto]. }
  destruct Hst as (Hq' & Hsub' & Hneed').
  intros clicked topic' difficulty' answer' evaluation' question_data' now'
    analysed_at' analysis'.
  split; [|split; [|split]].
  - unfold main_submit. rewrite Hq', Hsub'. reflexivity.
  - unfold main_next. rewrite Hsub'.
    replace (SessionState.questions_asked (session_state w') <? QUESTIONS_PER_SESSION)%Z
      with false by (symmetry; apply Z.ltb_ge; exact Hn).
    reflexivity.
  - unfold main_start. rewrite Hq'. reflexivity.
  - unfold main_new_question. rewrite Hneed'. reflexivity.
Qed.
End ScriptFailures.

Lemma main_submit_half_counts_witness :
  ∃ w',
    main_submit json_str json_float json_str_list true "Python" "Intermediate" "answer"
      (PDict [("is_correct", PBool true); ("subtopic_score", PFloat 1)])
      sample_time sample_time sample_analysis early_world = (w', Raised KeyError) ∧
    SessionState.correct_answers (session_state w') = 2%Z ∧
    SessionState.questions_asked (session_state w') = 1%Z.
Proof.
  destruct (evaluate_answer_graded generators_question "answer" "EN"
              (PDict [("is_correct", PBool true); ("subtopic_score", PFloat 1)])
              (PFloat 1) 1%Q sample_progress sample_service eq_refl eq_refl eq_refl)
    as (service1 & He & _).
  destruct (main_submit_half_counts json_str json_float json_str_list
              "Python" "Intermediate" "answer"
              (PDict [("is_correct", PBool true); ("subtopic_score", PFloat 1)])
              (PBool true) sample_time sample_time sample_analysis early_world
              generators_question service1 eq_refl eq_refl He eq_refl eq_refl eq_refl)
    as (w' & H & _ & Hc & Ha & _).
  exists w'. split; [exact H|]. split; [exact Hc|exact Ha].
Defined.

Lemma failed_session_end_is_stuck_witness :
  ∃ w',
    main_submit json_str json_float json_str_list true "Python" "Intermediate" "answer"
      (evaluation_with (PFloat (95 # 100))) sample_time sample_time PNone sample_world
    = (w', Raised TypeError) ∧
    main_next true w' = (w', Returned).
Proof.
  remember (main_submit json_str json_float json_str_list true "Python" "Intermediate"
              "answer" (evaluation_with (PFloat (95 # 100))) sample_time sample_time
              PNone sample_world) as run eqn:Hrun.
  assert (Ho : snd run = Raised TypeError) by (subst run; reflexivity).
  assert (Hn : SessionState.questions_asked (session_state (fst run)) = 5%Z)
    by (subst run; reflexivity).
  destruct run as [w' o]. cbn [fst snd] in Ho, Hn. subst o.
  exists w'. split; [reflexivity|].
  refine (proj1 (proj2 (failed_session_end_is_stuck json_str json_float json_str_list
                          "Python" "Intermediate" "answer"
                          (evaluation_with (PFloat (95 # 100)))
                          sample_time sample_time PNone sample_world w'
                          generators_question TypeError _ eq_refl eq_refl eq_refl
                          (eq_sym Hrun) _
                          true EmptyString EmptyString EmptyString PNone PNone
                          sample_time sample_time PNone))).
  - unfold counters_consistent, QUESTIONS_PER_SESSION. cbn. repeat split; lia.
  - rewrite Hn. unfold QUESTIONS_PER_SESSION. lia.
Defined.
